(** * ringparams_facts: the ring-parameter fact collector

    A shallow embedding of [src/ringparams_facts.py] (an Ansible module that
    runs [ethtool -g] on each network interface and reports the RX/TX ring
    sizes) together with the properties of its parser and aggregator.

    Layout:
    - [PyStr]: Python [str] values and the string methods the module calls
      ([strip], [splitlines], [split], [startswith], [replace]);
    - [Run]: the state-and-exception monad in which the module body runs
      (the calls of [module.warn] and of [module.run_command], the heap of
      parameter dicts);
    - [Facts]: the module itself, [get_interfaces] and [main], on a world:
      a host with what the Ansible library does on it;
    - the theorems. Most are stated for a host, which stands for the
      world on which every command returns and the library finds no
      locale tool, and for any state the run starts in; [main_world]
      relates the run on any world to them. *)

From Stdlib Require Import Ascii String ZArith NArith Lia.
From stdpp Require Import base option list gmap.

Set Default Proof Using "Type".

(* ===================================================================== *)
(** ** Python strings *)
(* ===================================================================== *)

Module PyStr.

(** A Python [str] is a sequence of Unicode code points. *)
Abbreviation char := N.
Abbreviation str := (list N).

(** A literal of the source, as the sequence of its (ASCII) code points. *)
Definition lit (s : string) : str := N_of_ascii <$> list_ascii_of_string s.

(** [str.isspace] on one character, which is what [strip()] without an
    argument removes: the ASCII table of CPython for code points below 128,
    the Unicode white-space property above. *)
Definition isspace (c : char) : bool :=
  ((9 <=? c) && (c <=? 13) || (28 <=? c) && (c <=? 32)
   || (c =? 133) || (c =? 160) || (c =? 5760)
   || (8192 <=? c) && (c <=? 8202)
   || (c =? 8232) || (c =? 8233) || (c =? 8239) || (c =? 8287)
   || (c =? 12288))%N.

(** The line boundaries of [str.splitlines]. *)
Definition islinebreak (c : char) : bool :=
  ((10 <=? c) && (c <=? 13) || (28 <=? c) && (c <=? 30)
   || (c =? 133) || (c =? 8232) || (c =? 8233))%N.

Fixpoint lstrip (s : str) : str :=
  match s with
  | c :: s' => if isspace c then lstrip s' else s
  | [] => []
  end.

Definition rstrip (s : str) : str := reverse (lstrip (reverse s)).

(** [s.strip()] *)
Definition strip (s : str) : str := rstrip (lstrip s).

(** [s.splitlines()]: [cur] is the line being read, most recent character
    first; [after_cr] says the previous character was a carriage return, so
    that a line feed right after it belongs to the same boundary. The text
    after the last boundary is a line only when it is not empty. *)
Fixpoint splitlines_from (after_cr : bool) (cur : str) (s : str) : list str :=
  match s with
  | [] => match cur with [] => [] | _ => [reverse cur] end
  | c :: s' =>
      if after_cr && (c =? 10)%N then splitlines_from false cur s'
      else if islinebreak c
           then reverse cur :: splitlines_from (c =? 13)%N [] s'
           else splitlines_from false (c :: cur) s'
  end.

Definition splitlines (s : str) : list str := splitlines_from false [] s.

(** [s.split(sep)] for a separator of one character (the module only
    splits on a colon): never empty, one more field than separators. *)
Fixpoint split (sep : char) (s : str) : list str :=
  match s with
  | [] => [[]]
  | c :: s' =>
      if (c =? sep)%N then [] :: split sep s'
      else match split sep s' with
           | w :: ws => (c :: w) :: ws
           | [] => [[c]]
           end
  end.

(** [s.startswith(p)] *)
Fixpoint startswith (s p : str) {struct p} : bool :=
  match p, s with
  | [], _ => true
  | _ :: _, [] => false
  | a :: p', c :: s' => (c =? a)%N && startswith s' p'
  end.

(** [s.replace(a, b)] for [a] and [b] of one character each. *)
Definition replace (a b : char) (s : str) : str :=
  (fun c => if (c =? a)%N then b else c) <$> s.

(** [s == t] *)
Definition eqb (s t : str) : bool := bool_decide (s = t).

Definition colon : char := 58%N.
Definition newline : char := 10%N.
Definition dot : char := 46%N.

End PyStr.

Import PyStr.


(* ===================================================================== *)
(** ** The monad of the module body *)
(* ===================================================================== *)

Module Run.

(** The exceptions the module body could raise by itself. *)
Inductive Exn := KeyError | IndexError.

(** One call of [module.run_command]. *)
Record Command := { cmd : str; use_unsafe_shell : bool }.

(** What the run changes: the messages given to [module.warn], one entry
    for each call, in the order of the calls (what the library does with
    a message given twice is its own affair); the calls of
    [module.run_command] so far; and the dict objects [values[interface]]
    refers to. Such an object maps ['current'] and ['preset'] to the dict
    of that section; the records of [ringparams] refer to it by its
    address, so a later write through [values] would be seen by them. *)
Record State := {
  warnings : list str;
  commands : list Command;
  heap : list (gmap str (gmap str str));
}.

Definition initial : State := {| warnings := []; commands := []; heap := [] |}.

Definition with_heap (s : State) (h : list (gmap str (gmap str str))) : State :=
  {| warnings := warnings s; commands := commands s; heap := h |}.

(** A statement returns, or leaves through the [module.fail_json] of
    [main] (which exits the process with its message and the [result]
    given to it), or raises, or is ended by [module.run_command], which
    calls [fail_json] itself, with its own message and [rc], when it
    cannot start the command. *)
Inductive Outcome (A : Type) :=
| Ok (a : A) (s : State)
| Failed (msg : str) (network_interfaces : list str) (s : State)
| Raised (e : Exn) (s : State)
| Aborted (msg : str) (rc : Z) (s : State).
Arguments Ok {A} a s.
Arguments Failed {A} msg network_interfaces s.
Arguments Raised {A} e s.
Arguments Aborted {A} msg rc s.

Definition M (A : Type) : Type := State -> Outcome A.

#[export] Instance M_ret : MRet M := fun A a s => Ok a s.
#[export] Instance M_bind : MBind M := fun A B f m s =>
  match m s with
  | Ok a s' => f a s'
  | Failed msg r s' => Failed msg r s'
  | Raised e s' => Raised e s'
  | Aborted msg rc s' => Aborted msg rc s'
  end.

Definition raise {A} (e : Exn) : M A := fun s => Raised e s.

(** [module.fail_json(msg=msg, network_interfaces=...)] *)
Definition fail_json {A} (msg : str) (network_interfaces : list str) : M A :=
  fun s => Failed msg network_interfaces s.

(** [module.warn(w)] *)
Definition warn (w : str) : M unit := fun s =>
  Ok () {| warnings := warnings s ++ [w]; commands := commands s; heap := heap s |}.

(** A new, empty dict object. *)
Definition new_dict : M nat := fun s =>
  Ok (length (heap s)) (with_heap s (heap s ++ [∅])).

Definition load (p : nat) : M (gmap str (gmap str str)) := fun s =>
  match heap s !! p with
  | Some d => Ok d s
  | None => Raised KeyError s
  end.

Definition store (p : nat) (d : gmap str (gmap str str)) : M unit := fun s =>
  Ok () (with_heap s (<[p := d]> (heap s))).

(** [m[k]], for a dict held by value. *)
Definition item {V} (m : gmap str V) (k : str) : M V :=
  match m !! k with
  | Some v => mret v
  | None => raise KeyError
  end.

(** [l[i]] *)
Definition index {A} (l : list A) (i : nat) : M A :=
  match l !! i with
  | Some x => mret x
  | None => raise IndexError
  end.

(** [for x in l: acc = body(x, acc)], the loop-carried locals in [acc]. *)
Fixpoint for_ {A B} (l : list A) (body : A -> B -> M B) (acc : B) : M B :=
  match l with
  | [] => mret acc
  | x :: l' => acc' ← body x acc; for_ l' body acc'
  end.

End Run.

Import Run.

(* ===================================================================== *)
(** ** The module *)
(* ===================================================================== *)

Module Facts.

(** What the module asks of the host it runs on: [shutil.which],
    [os.path.isfile], [shlex.quote] and the result [(rc, stdout, stderr)]
    of a [module.run_command] that returns, which may depend on the
    commands run before (and so on the locale [main] has set). *)
Record Host := {
  which : str -> option str;
  isfile : str -> bool;
  quote : str -> str;
  execute : list Command -> Command -> Z * str * str;
}.

(** The host with what the library under the module does on it, none of
    which is code of this repository:
    - [aborts log k]: [module.run_command] does not return from the call
      [k] made after the calls [log], but ends the run through its own
      [fail_json] with this message and [rc] (a command line it cannot
      start, such as one with a NUL character in it);
    - [locale_query]: the command [get_best_parsable_locale] runs through
      [module.run_command] to list the locales, when it finds the tool
      for it;
    - [locale_name]: the locale it then returns, given the reply. *)
Record World := {
  base : Host;
  aborts : list Command -> Command -> option (str * Z);
  locale_query : option Command;
  locale_name : option (Z * str * str) -> str;
}.

(** A host on which no command is refused and no locale tool is found.
    A run on it goes on as a run on any host does from the state the
    locale query leaves, as long as [module.run_command] returns. *)
Definition of_host (h : Host) : World :=
  {| base := h;
     aborts := fun _ _ => None;
     locale_query := None;
     locale_name := fun _ => lit "C" |}.

Coercion of_host : Host >-> World.

(** One element of [ringparams]; ['msg'] is a key some records lack.
    [P] is what ['parameters'] holds: the address of the dict while the
    module runs, the dict itself once the result is written out. *)
Record InterfaceRecord (P : Type) := {
  interface : str;
  supported : bool;
  parameters : P;
  msg : option str;
}.
Arguments interface {P} _.
Arguments supported {P} _.
Arguments parameters {P} _.
Arguments msg {P} _.

Section WithHost.

Variable world : World.

(** [module.run_command(c, use_unsafe_shell=sh)] *)
Definition run_command (c : str) (sh : bool) : M (Z * str * str) := fun s =>
  let k := {| cmd := c; use_unsafe_shell := sh |} in
  match aborts world (commands s) k with
  | Some (msg, rc) =>
      Aborted msg rc
        {| warnings := warnings s; commands := commands s ++ [k]; heap := heap s |}
  | None =>
      Ok (execute (base world) (commands s) k)
         {| warnings := warnings s; commands := commands s ++ [k]; heap := heap s |}
  end.

(** [get_best_parsable_locale(module)], called at line 136: library code,
    which returns a locale after asking the host for its locales. *)
Definition get_best_parsable_locale : M str :=
  match locale_query world with
  | Some k =>
      reply ← run_command (cmd k) (use_unsafe_shell k);
      mret (locale_name world (Some reply))
  | None => mret (locale_name world None)
  end.

(** [get_interfaces(module)], lines 107-125. *)
Definition get_interfaces : M (list str) :=
  let list_interfaces := [] in
  if isfile (base world) (lit "/proc/net/dev") then
    '(rc, stdout, stderr) ← run_command
      (lit "/usr/bin/cat /proc/net/dev | /usr/bin/tail -n +3 | /usr/bin/awk -F: '{ print $1 }'")
      true;
    if (rc =? 0)%Z then
      mret (foldl (fun list_interfaces line =>
                     let intf := strip line in
                     if negb (eqb intf (lit "lo"))
                     then list_interfaces ++ [intf]
                     else list_interfaces)
                  list_interfaces (splitlines (strip stdout)))
    else
      let stderr := replace newline dot stderr in
      warn (lit "Unable to fetch list of network interfaces: " ++ stderr);;
      mret list_interfaces
  else mret list_interfaces.

(** [values[interface][section] = {}] *)
Definition init_section (values : gmap str nat) (interface section : str) : M unit :=
  p ← item values interface;
  d ← load p;
  store p (<[section := ∅]> d).

(** [values[interface][section][key] = v] *)
Definition set_param (values : gmap str nat) (interface section key v : str) : M unit :=
  p ← item values interface;
  d ← load p;
  inner ← item d section;
  store p (<[section := <[key := v]> inner]> d).

(** The two stores guarded by [l.startswith(key + ':')], lines 181-194:
    the value is computed, then stored, first for [current], then for
    [pre]. *)
Definition scan_value (values : gmap str nat) (interface key l : str)
    (pre current : bool) : M unit :=
  (if current then
     v ← index (split colon l) 1;
     set_param values interface (lit "current") key (strip v)
   else mret ());;
  (if pre then
     v ← index (split colon l) 1;
     set_param values interface (lit "preset") key (strip v)
   else mret ()).

(** The body of [for line in stdout.strip().splitlines()], lines 174-194.
    The four tests are made one after the other on every line. *)
Definition scan_line (values : gmap str nat) (interface : str)
    (line : str) (flags : bool * bool) : M (bool * bool) :=
  let '(pre, current) := flags in
  let l := strip line in
  let '(pre, current) :=
    if eqb l (lit "Pre-set maximums:") then (true, false) else (pre, current) in
  let '(pre, current) :=
    if eqb l (lit "Current hardware settings:") then (false, true) else (pre, current) in
  (if startswith l (lit "RX:")
   then scan_value values interface (lit "RX") l pre current else mret ());;
  (if startswith l (lit "TX:")
   then scan_value values interface (lit "TX") l pre current else mret ());;
  mret (pre, current).

(** The body of [for interface in list_interfaces], lines 153-194. The
    locals [values] and [ringparams] are carried from one interface to the
    next. *)
Definition query_interface (exe : str) (interface : str)
    (locals : gmap str nat * list (InterfaceRecord nat))
    : M (gmap str nat * list (InterfaceRecord nat)) :=
  let '(values, ringparams) := locals in
  p ← new_dict;
  let values := <[interface := p]> values in
  init_section values interface (lit "current");;
  init_section values interface (lit "preset");;
  '(rc, stdout, stderr) ← run_command (exe ++ lit " -g " ++ quote (base world) interface) false;
  if negb (rc =? 0)%Z then
    let stderr := replace newline dot stderr in
    warn (lit "Unable to run ethtool for " ++ interface ++ lit ": " ++ stderr);;
    params ← item values interface;
    mret (values,
          ringparams ++ [{| interface := interface; supported := false;
                            parameters := params;
                            msg := Some (lit "Failed to find ringparams") |}])
  else
    if (rc =? 0)%Z then
      for_ (splitlines (strip stdout)) (scan_line values interface) (false, false);;
      params ← item values interface;
      mret (values,
            ringparams ++ [{| interface := interface; supported := true;
                              parameters := params; msg := None |}])
    else mret (values, ringparams).

(** [module.exit_json(ansible_facts=dict(ringparams=ringparams))]: the
    records are written out with the dicts they refer to, as these are
    when the module exits. *)
Definition exit_json (ringparams : list (InterfaceRecord nat))
    : M (list (InterfaceRecord (gmap str (gmap str str)))) :=
  for_ ringparams
       (fun r out =>
          d ← load (parameters r);
          mret (out ++ [{| interface := interface r; supported := supported r;
                           parameters := d; msg := msg r |}]))
       [].

(** [main()], lines 128-198, for [module.params['interfaces']] equal to
    [interfaces]. A run that returns gives [ansible_facts.ringparams].
    The locale of line 136 goes to [module.run_command_environ_update]
    (line 137): the commands that follow run in it, which shows in
    what [execute] answers after the locale query. *)
Definition main (interfaces : list str)
    : M (list (InterfaceRecord (gmap str (gmap str str)))) :=
  locale ← get_best_parsable_locale;
  let run_command_environ_update := (locale, locale) in
  let list_interfaces := interfaces in
  let network_interfaces := list_interfaces in
  exe ← match which (base world) (lit "ethtool") with
        | None => fail_json (lit "Could not find ethtool executable") network_interfaces
        | Some exe => mret exe
        end;
  list_interfaces ← match list_interfaces with
                    | [] => get_interfaces
                    | _ :: _ => mret list_interfaces
                    end;
  '(values, ringparams) ← for_ list_interfaces (query_interface exe) (∅, []);
  exit_json ringparams.

End WithHost.

End Facts.

Import Facts.

(* ===================================================================== *)
(** ** What the loops compute *)
(* ===================================================================== *)

(** The loops of [main] as functions on the values they change. They are
    related to the module by the lemmas [scan_line_run], [scan_run],
    [query_interface_run] and [main_run] below. *)
Module Denote.

(** The text of [s] before its first [sep] (all of [s] without one). *)
Fixpoint before (sep : char) (s : str) : str :=
  match s with
  | [] => []
  | c :: s' => if (c =? sep)%N then [] else c :: before sep s'
  end.

(** [l.split(':')[1].strip()], where there is a second field. *)
Definition value_of (l : str) : str := strip (default [] (split colon l !! 1)).

(** [d[section][key] = v] on a dict that has [section]. *)
Definition put (section key v : str) (d : gmap str (gmap str str))
    : gmap str (gmap str str) :=
  match d !! section with
  | Some inner => <[section := <[key := v]> inner]> d
  | None => d
  end.

Definition step_value (key l : str) (pre current : bool)
    (d : gmap str (gmap str str)) : gmap str (gmap str str) :=
  let d := if current then put (lit "current") key (value_of l) d else d in
  if pre then put (lit "preset") key (value_of l) d else d.

(** The section flags [(pre, current)] after a line whose trimmed form
    is [l]. *)
Definition step_flags (l : str) (flags : bool * bool) : bool * bool :=
  let '(pre, current) := flags in
  let '(pre, current) :=
    if eqb l (lit "Pre-set maximums:") then (true, false) else (pre, current) in
  if eqb l (lit "Current hardware settings:") then (false, true) else (pre, current).

Definition step_line (st : bool * bool * gmap str (gmap str str)) (line : str)
    : bool * bool * gmap str (gmap str str) :=
  let '(flags, d) := st in
  let l := strip line in
  let '(pre, current) := step_flags l flags in
  let d := if startswith l (lit "RX:") then step_value (lit "RX") l pre current d else d in
  let d := if startswith l (lit "TX:") then step_value (lit "TX") l pre current d else d in
  (pre, current, d).

Definition scan (st : bool * bool * gmap str (gmap str str)) (lines : list str)
    : bool * bool * gmap str (gmap str str) :=
  foldl step_line st lines.

(** The text of [s] after its first [sep] (nothing without one). *)
Fixpoint after_first (sep : char) (s : str) : str :=
  match s with
  | [] => []
  | c :: s' => if (c =? sep)%N then s' else after_first sep s'
  end.

(** [d[section][key]], if there is one. *)
Definition stored (d : gmap str (gmap str str)) (section key : str) : option str :=
  inner ← d !! section; inner !! key.

(** Both parameter sets are there and empty. *)
Definition both_empty (d : gmap str (gmap str str)) : Prop :=
  d !! lit "current" = Some ∅ /\ d !! lit "preset" = Some ∅.

(** A line one of the four tests of the scan answers to: a section
    header, or a line that starts with [RX:] or [TX:]. *)
Definition relevant (line : str) : bool :=
  let l := strip line in
  eqb l (lit "Pre-set maximums:") || eqb l (lit "Current hardware settings:")
  || startswith l (lit "RX:") || startswith l (lit "TX:").

(** A value as the scan stores it: trimmed, without a colon and without
    a line boundary. *)
Definition clean_value (v : str) : Prop :=
  strip v = v /\ (colon ∉ v) /\ Forall (fun c => islinebreak c = false) v.

(** The shape of [parameters]: the two sections, with no key but [RX]
    and [TX]. *)
Definition well_shaped (d : gmap str (gmap str str)) : Prop :=
  dom d = ({[ lit "current"; lit "preset" ]} : gset str)
  /\ forall section inner,
       d !! section = Some inner -> dom inner ⊆ ({[ lit "RX"; lit "TX" ]} : gset str).

(** A dict with both sections, as [values[interface]] is during a scan. *)
Definition has_sections (d : gmap str (gmap str str)) : Prop :=
  is_Some (d !! lit "current") /\ is_Some (d !! lit "preset").

(** [values[interface]] when the scan of an interface starts. *)
Definition no_params : gmap str (gmap str str) :=
  <[lit "preset" := ∅]> (<[lit "current" := ∅]> ∅).

(** The parameters read from the output of [ethtool -g]. *)
Definition parse (stdout : str) : gmap str (gmap str str) :=
  (scan (false, false, no_params) (splitlines (strip stdout))).2.

(** The command line of [get_interfaces]. *)
Definition listing : Command :=
  {| cmd := lit "/usr/bin/cat /proc/net/dev | /usr/bin/tail -n +3 | /usr/bin/awk -F: '{ print $1 }'";
     use_unsafe_shell := true |}.

(** The record of an interface, given what it holds as parameters. *)
Definition record_of {P} (a : str * (Z * str * str)) (params : P) : InterfaceRecord P :=
  if negb (a.2.1.1 =? 0)%Z
  then {| interface := a.1; supported := false; parameters := params;
          msg := Some (lit "Failed to find ringparams") |}
  else {| interface := a.1; supported := true; parameters := params; msg := None |}.

Definition params_of (a : str * (Z * str * str)) : gmap str (gmap str str) :=
  if negb (a.2.1.1 =? 0)%Z then no_params else parse a.2.1.2.

Definition warning_of (a : str * (Z * str * str)) : list str :=
  if negb (a.2.1.1 =? 0)%Z
  then [lit "Unable to run ethtool for " ++ a.1 ++ lit ": " ++ replace newline dot a.2.2]
  else [].

Section WithHost.

Variable host : Host.

Definition ethtool_g (exe interface : str) : Command :=
  {| cmd := exe ++ lit " -g " ++ quote host interface; use_unsafe_shell := false |}.

(** The interfaces of [l] with the answer each gets, [log] being the
    commands run before. *)
Fixpoint answers (exe : str) (log : list Command) (l : list str)
    : list (str * (Z * str * str)) :=
  match l with
  | [] => []
  | i :: l' =>
      (i, execute host log (ethtool_g exe i))
      :: answers exe (log ++ [ethtool_g exe i]) l'
  end.

(** The state once the interfaces of [l] have been queried from [s]. *)
Definition after (s : State) (exe : str) (l : list str) : State :=
  {| warnings := warnings s ++ mjoin (warning_of <$> answers exe (commands s) l);
     commands := commands s ++ (ethtool_g exe <$> l);
     heap := heap s ++ (params_of <$> answers exe (commands s) l) |}.

End WithHost.

(** The calls of [module.run_command] the locale query makes. *)
Definition locale_commands (w : World) : list Command :=
  match locale_query w with
  | Some k => [k]
  | None => []
  end.

(** The state the locale query leaves when it returns. *)
Definition after_locale (w : World) (s : State) : State :=
  {| warnings := warnings s;
     commands := commands s ++ locale_commands w;
     heap := heap s |}.

(** The outcome of a run that [module.run_command] has ended: by its call
    [k], made after the calls [log]. *)
Definition ended_by_run_command {A} (w : World) (o : Outcome A) : Prop :=
  exists msg rc s' log k,
    o = Aborted msg rc s' /\ commands s' = log ++ [k] /\ aborts w log k = Some (msg, rc).

(** [ringparams] after the interfaces of [l], the first of which got
    the dict at address [n]. *)
Fixpoint refs (n : nat) (l : list (str * (Z * str * str))) : list (InterfaceRecord nat) :=
  match l with
  | [] => []
  | a :: l' => record_of a n :: refs (S n) l'
  end.

(** [ansible_facts.ringparams] as written out. *)
Definition facts (l : list (str * (Z * str * str)))
    : list (InterfaceRecord (gmap str (gmap str str))) :=
  (fun a => record_of a (params_of a)) <$> l.

End Denote.

Import Denote.

(* ===================================================================== *)
(** ** Running the module on the scenarios of its documentation *)
(* ===================================================================== *)

Module Scenario.

(** A host on which [which] finds [ethtool] (or nothing), whose interface
    listing answers [listing] and on which any other command line [c]
    answers [answer c]; its [quote] leaves plain names as they are. *)
Definition host_with (ethtool : option str) (proc_net_dev : bool)
    (listing : Z * str * str) (answer : str -> Z * str * str) : Host :=
  {| which := fun _ => ethtool;
     isfile := fun _ => proc_net_dev;
     quote := fun s => s;
     execute := fun _ k =>
       if use_unsafe_shell k then listing else answer (cmd k) |}.

Definition nl : str := [newline].

Definition eno3_output : str :=
  lit "Ring parameters for eno3:" ++ nl ++
  lit "Pre-set maximums:" ++ nl ++
  lit "RX:             4096" ++ nl ++
  lit "RX Mini:        n/a" ++ nl ++
  lit "TX:             4096" ++ nl ++
  lit "Current hardware settings:" ++ nl ++
  lit "RX:             512" ++ nl ++
  lit "TX:             512" ++ nl.

Definition params (cur pre : list (str * str)) : gmap str (gmap str str) :=
  {[ lit "current" := list_to_map cur; lit "preset" := list_to_map pre ]}.

(** [ethtool -g] succeeds and prints nothing. *)
Definition quiet_host : Host :=
  host_with (Some (lit "/usr/sbin/ethtool")) true (0%Z, [], []) (fun _ => (0%Z, [], [])).

(** [eno3] answers as in the documentation, [eno4] does not exist. *)
Definition eno4_host : Host :=
  host_with (Some (lit "/usr/sbin/ethtool")) true (0%Z, [], [])
    (fun c => if eqb c (lit "/usr/sbin/ethtool -g eno4")
              then (1%Z, [], lit "netlink error: no device matches name" ++ [newline] ++ lit "no such device")
              else (0%Z, eno3_output, [])).

(** What the listing prints on a host with two Ethernet interfaces. *)
Definition proc_net_dev : str :=
  lit "  eno1" ++ [newline] ++ lit "  eno2" ++ [newline] ++ lit "    lo" ++ [newline].

Definition three_interfaces_host : Host :=
  host_with (Some (lit "/usr/sbin/ethtool")) true (0%Z, proc_net_dev, [])
    (fun _ => (0%Z, eno3_output, [])).

(** A host without [/proc/net/dev]. *)
Definition no_proc_host : Host :=
  host_with (Some (lit "/usr/sbin/ethtool")) false (0%Z, proc_net_dev, [])
    (fun _ => (0%Z, eno3_output, [])).

(** A host on which the listing command fails. *)
Definition failing_listing_host : Host :=
  host_with (Some (lit "/usr/sbin/ethtool")) true
    (2%Z, [], lit "cat: /proc/net/dev:" ++ [newline] ++ lit "Permission denied")
    (fun _ => (0%Z, eno3_output, [])).

(** A host on which only the first command succeeds: what a command
    answers depends on the commands run before it. *)
Definition flapping_host : Host :=
  {| which := fun _ => Some (lit "/usr/sbin/ethtool");
     isfile := fun _ => true;
     quote := fun s => s;
     execute := fun log _ =>
       match log with
       | [] => (0%Z, eno3_output, [])
       | _ :: _ => (1%Z, [], lit "device busy")
       end |}.

(** A host whose [ethtool -g] prints the maximum of RX and nothing else. *)
Definition preset_only_host : Host :=
  host_with (Some (lit "/usr/sbin/ethtool")) true (0%Z, [], [])
    (fun _ => (0%Z, lit "Pre-set maximums:" ++ nl ++ lit "RX:   4096" ++ nl, [])).

(** A host without [ethtool]. *)
Definition no_ethtool_host : Host :=
  host_with None true (0%Z, proc_net_dev, []) (fun _ => (0%Z, eno3_output, [])).

(** A host with the locale tool: the library lists the locales first. *)
Definition with_locale (h : Host) : World :=
  {| base := h;
     aborts := fun _ _ => None;
     locale_query := Some {| cmd := lit "/usr/bin/locale -a"; use_unsafe_shell := false |};
     locale_name := fun _ => lit "C.UTF-8" |}.

(** A host on which [module.run_command] cannot start a command line with
    a NUL character in it, and ends the run; [quote] puts such a name
    between single quotes. *)
Definition nul_world : World :=
  {| base :=
       {| which := fun _ => Some (lit "/usr/sbin/ethtool");
          isfile := fun _ => true;
          quote := fun s => if bool_decide (0%N ∈ s) then [39%N] ++ s ++ [39%N] else s;
          execute := fun _ _ => (0%Z, eno3_output, []) |};
     aborts := fun _ k =>
       if bool_decide (0%N ∈ cmd k) then Some (lit "embedded null byte", 257%Z) else None;
     locale_query := Some {| cmd := lit "/usr/bin/locale -a"; use_unsafe_shell := false |};
     locale_name := fun _ => lit "C.UTF-8" |}.

(** The state in the middle of a scan: one dict, [values[interface]]. *)
Definition scanning (d : gmap str (gmap str str)) : State :=
  {| warnings := []; commands := []; heap := [d] |}.

(** [values] while [eno3] is scanned. *)
Definition one_interface : gmap str nat := {[ lit "eno3" := 0 ]}.

End Scenario.

Example strip_ex : strip (lit "  RX:   4096  ") = lit "RX:   4096".
Proof. reflexivity. Qed.

Example splitlines_ex :
  splitlines (lit "a" ++ [13; 10]%N ++ lit "b" ++ [10; 10]%N ++ lit "c" ++ [10]%N)
  = [lit "a"; lit "b"; []; lit "c"].
Proof. reflexivity. Qed.

Example splitlines_empty : splitlines [] = [] /\ splitlines [newline] = [[]].
Proof. split; reflexivity. Qed.

Example split_ex :
  split colon (lit "RX: 512:foo") = [lit "RX"; lit " 512"; lit "foo"]
  /\ split colon (lit "RX:") = [lit "RX"; []]
  /\ split colon [] = [[]].
Proof. repeat split; reflexivity. Qed.

Example main_eno3 :
  exists s,
    main (Scenario.host_with (Some (lit "/usr/sbin/ethtool")) true (0%Z, [], [])
            (fun _ => (0%Z, Scenario.eno3_output, [])))
         [lit "eno3"] initial
    = Ok [ {| interface := lit "eno3"; supported := true;
              parameters := Scenario.params
                [(lit "RX", lit "512"); (lit "TX", lit "512")]
                [(lit "RX", lit "4096"); (lit "TX", lit "4096")];
              msg := None |} ] s.
Proof. eexists. vm_compute. reflexivity. Qed.

(* ===================================================================== *)
(** ** String lemmas *)
(* ===================================================================== *)

Section Strings.

Implicit Types (s r p l : str) (c sep : char).

Lemma split_nonempty sep s : split sep s <> [].
Proof. destruct s as [|c s]; simpl; [done|]. destruct (c =? sep)%N; [done|]. by destruct (split sep s). Qed.

Lemma split_first sep s : exists fs, split sep s = before sep s :: fs.
Proof.
  induction s as [|c s [fs IH]]; simpl; [by eexists|].
  destruct (c =? sep)%N; [by eexists|]. rewrite IH. by eexists.
Qed.

Lemma startswith_app s p : startswith s p = true <-> exists r, s = p ++ r.
Proof.
  revert s. induction p as [|a p IH]; intros s; simpl.
  - split; [intros _; by exists s | intros _; reflexivity].
  - destruct s as [|c s]; simpl.
    + split; [intros [=] | intros [r [=]]].
    + rewrite andb_true_iff, N.eqb_eq, IH. split.
      * intros [-> [r ->]]. by exists r.
      * intros [r [= -> ->]]. eauto.
Qed.

(** After a prefix [key ++ ":"] in which the colon is the first one, the
    second field is the text up to the next colon. *)
Lemma split_second key r :
  before colon (key ++ [colon]) = key ->
  split colon (key ++ colon :: r) !! 1 = Some (before colon r).
Proof.
  induction key as [|c key IH]; simpl.
  - intros _. destruct (split_first colon r) as [fs ->]. done.
  - destruct (c =? colon)%N eqn:E; [done|]. intros [= Hk].
    specialize (IH Hk).
    destruct (split colon (key ++ colon :: r)) as [|w [|w' ws]]; simplify_eq/=; done.
Qed.

End Strings.

(* ===================================================================== *)
(** ** The loops run as the functions of [Denote] say *)
(* ===================================================================== *)

(** On a host taken as a world, the library steps are those of the host. *)
Ltac on_host := cbn [base aborts locale_query locale_name of_host] in *.

Section Runs.
Variable host : Host.
Implicit Types (s : State) (d : gmap (list N) (gmap (list N) (list N))) (values : gmap str nat).

Lemma bind_run {A B} (m : M A) (f : A -> M B) s :
  (m ≫= f) s = match m s with
               | Ok a s' => f a s'
               | Failed w r s' => Failed w r s'
               | Raised e s' => Raised e s'
               | Aborted w rc s' => Aborted w rc s'
               end.
Proof. reflexivity. Qed.


Lemma with_heap_id s : with_heap s (heap s) = s.
Proof. by destruct s. Qed.

Lemma with_heap_twice s h h' : with_heap (with_heap s h) h' = with_heap s h'.
Proof. reflexivity. Qed.

Lemma put_has_sections section key v d : has_sections d -> has_sections (put section key v d).
Proof.
  intros [Hc Hp]. unfold put. destruct (d !! section) eqn:E; [|done].
  split; rewrite lookup_insert; case_decide; eauto.
Qed.

Lemma set_param_run values i section key v s p d :
  values !! i = Some p -> heap s !! p = Some d -> is_Some (d !! section) ->
  set_param values i section key v s
  = Ok () (with_heap s (<[p := put section key v d]> (heap s))).
Proof.
  intros Hv Hp [inner Hd]. unfold set_param, item, load, store, put.
  rewrite Hv. rewrite bind_run. simpl. rewrite bind_run, Hp. rewrite Hd. reflexivity.
Qed.

Lemma scan_value_run values i key l pre current s p d :
  values !! i = Some p -> heap s !! p = Some d -> has_sections d ->
  is_Some (split colon l !! 1) ->
  scan_value values i key l pre current s
  = Ok () (with_heap s (<[p := step_value key l pre current d]> (heap s))).
Proof.
  intros Hv Hp Hd [v Hl]. unfold scan_value, step_value, value_of, index.
  rewrite Hl. simpl.
  assert (p < length (heap s)) as Hlen by (by eapply lookup_lt_Some).
  destruct current, pre; rewrite !bind_run; simpl.
  - erewrite set_param_run by (eauto; apply Hd). rewrite bind_run; simpl.
    erewrite set_param_run; [| eauto | by apply list_lookup_insert_eq | by apply put_has_sections].
    simpl. by rewrite list_insert_insert_eq.
  - erewrite set_param_run by (eauto; apply Hd). done.
  - rewrite bind_run; simpl. erewrite set_param_run by (eauto; apply Hd). done.
  - by rewrite list_insert_id, with_heap_id.
Qed.

Lemma step_value_has_sections key l pre current d :
  has_sections d -> has_sections (step_value key l pre current d).
Proof. intros. unfold step_value. destruct current, pre; auto using put_has_sections. Qed.

Lemma step_line_has_sections flags d line :
  has_sections d -> has_sections (step_line (flags, d) line).2.
Proof.
  intros. unfold step_line. destruct (step_flags _ _) as [pre current].
  repeat case_match; simpl; auto using step_value_has_sections.
Qed.

Lemma startswith_second l key :
  before colon (key ++ [colon]) = key ->
  startswith l (key ++ [colon]) = true -> 
  exists r, l = key ++ colon :: r /\ split colon l !! 1 = Some (before colon r).
Proof.
  intros Hk [r ->]%startswith_app. exists r. rewrite <- app_assoc. simpl.
  split; [done|]. by apply split_second.
Qed.

Lemma scan_line_run values i line flags s p d :
  values !! i = Some p -> heap s !! p = Some d -> has_sections d ->
  scan_line values i line flags s
  = Ok (step_line (flags, d) line).1
       (with_heap s (<[p := (step_line (flags, d) line).2]> (heap s))).
Proof.
  intros Hv Hp Hd. unfold scan_line, step_line, step_flags. destruct flags as [pre0 cur0].
  set (l := strip line).
  assert (p < length (heap s)) as Hlen by (by eapply lookup_lt_Some).
  assert (forall key (b : bool) pre current s' d',
    before colon (key ++ [colon]) = key ->
    heap s' !! p = Some d' -> has_sections d' ->
    (if startswith l (key ++ [colon]) then scan_value values i key l pre current else mret ()) s'
    = Ok () (with_heap s' (<[p := if startswith l (key ++ [colon]) then step_value key l pre current d' else d']> (heap s')))) as Hstep.
  { intros key _ pre current s' d' Hk Hp' Hd'.
    destruct (startswith l (key ++ [colon])) eqn:E.
    - destruct (startswith_second _ _ Hk E) as (r & _ & Hr).
      by eapply scan_value_run.
    - by rewrite list_insert_id, with_heap_id. }
  set (f1 := if eqb l (lit "Pre-set maximums:") then (true, false) else (pre0, cur0)).
  destruct f1 as [pre1 cur1].
  set (f2 := if eqb l (lit "Current hardware settings:") then (false, true) else (pre1, cur1)).
  destruct f2 as [pre current].
  change (lit "RX:") with (lit "RX" ++ [colon]).
  change (lit "TX:") with (lit "TX" ++ [colon]).
  rewrite bind_run.
  rewrite (Hstep (lit "RX") true pre current s d) by done.
  cbv beta iota. rewrite bind_run.
  rewrite (Hstep (lit "TX") true pre current _ 
             (if startswith l (lit "RX" ++ [colon]) then step_value (lit "RX") l pre current d else d)).
  - simpl. by rewrite list_insert_insert_eq.
  - done.
  - simpl. by apply list_lookup_insert_eq.
  - case_match; auto using step_value_has_sections.
Qed.

Lemma scan_cons st line lines : scan st (line :: lines) = scan (step_line st line) lines.
Proof. reflexivity. Qed.

Lemma scan_app st lines lines' : scan st (lines ++ lines') = scan (scan st lines) lines'.
Proof. apply foldl_app. Qed.

Lemma scan_has_sections lines flags d :
  has_sections d -> has_sections (scan (flags, d) lines).2.
Proof.
  revert flags d. induction lines as [|line lines IH]; intros flags d Hd; [done|].
  rewrite scan_cons. destruct (step_line (flags, d) line) as [flags' d'] eqn:E.
  apply IH. change d' with (flags', d').2. rewrite <- E. by apply step_line_has_sections.
Qed.

Lemma scan_run values i lines flags s p d :
  values !! i = Some p -> heap s !! p = Some d -> has_sections d ->
  for_ lines (scan_line values i) flags s
  = Ok (scan (flags, d) lines).1
       (with_heap s (<[p := (scan (flags, d) lines).2]> (heap s))).
Proof.
  intros Hv. revert flags s d.
  induction lines as [|line lines IH]; intros flags s d Hp Hd.
  - simpl. by rewrite list_insert_id, with_heap_id.
  - assert (p < length (heap s)) as Hlen by (by eapply lookup_lt_Some).
    rewrite scan_cons. cbn [for_]. rewrite bind_run. erewrite scan_line_run by eauto.
    destruct (step_line (flags, d) line) as [flags' d'] eqn:E. cbn [fst snd].
    erewrite IH; [| by apply list_lookup_insert_eq |].
    + cbn [heap with_heap]. by rewrite list_insert_insert_eq.
    + change d' with (flags', d').2. rewrite <- E. by apply step_line_has_sections.
Qed.


Lemma no_params_has_sections : has_sections no_params.
Proof. split; by eexists. Qed.

Lemma init_section_run values i section s p d :
  values !! i = Some p -> heap s !! p = Some d ->
  init_section values i section s = Ok () (with_heap s (<[p := <[section := ∅]> d]> (heap s))).
Proof.
  intros Hv Hp. unfold init_section, item, load, store.
  rewrite Hv, bind_run. cbn [mret M_ret]. rewrite bind_run, Hp. done.
Qed.

(** The body of the loop on any world: it is ended by [module.run_command],
    or goes as on the host. *)
Lemma query_interface_world (w : World) exe i values rp s :
  query_interface w exe i (values, rp) s
  = match aborts w (commands s) (ethtool_g (base w) exe i) with
    | Some (msg, rc) =>
        Aborted msg rc
          {| warnings := warnings s;
             commands := commands s ++ [ethtool_g (base w) exe i];
             heap := heap s ++ [no_params] |}
    | None =>
        Ok (<[i := length (heap s)]> values,
            rp ++ refs (length (heap s)) (answers (base w) exe (commands s) [i]))
           (after (base w) s exe [i])
    end.
Proof.
  unfold query_interface, after. cbn [answers fmap list_fmap refs mjoin list_join].
  set (p := length (heap s)). unfold ethtool_g.
  set (k := {| cmd := exe ++ lit " -g " ++ quote (base w) i; use_unsafe_shell := false |}).
  rewrite bind_run. unfold new_dict. fold p. cbv beta iota.
  rewrite bind_run.
  erewrite init_section_run;
    [| apply lookup_insert_eq | cbn [heap with_heap]; by apply list_lookup_middle].
  cbn [heap with_heap]. cbv beta iota. rewrite bind_run.
  erewrite init_section_run;
    [| apply lookup_insert_eq
     | cbn [heap with_heap]; rewrite insert_app_r_alt, Nat.sub_diag by done;
       by apply list_lookup_middle].
  cbn [heap with_heap]. cbv beta iota.
  rewrite !insert_app_r_alt, !Nat.sub_diag by (rewrite ?length_app; simpl; lia).
  cbn [insert list_insert]. fold no_params. rewrite !with_heap_twice.
  rewrite bind_run. unfold run_command. cbn [commands with_heap warnings heap]. fold k.
  destruct (aborts w (commands s) k) as [[msg rc]|]; [reflexivity|].
  unfold record_of, params_of, warning_of. cbn [fst snd].
  destruct (execute (base w) (commands s) k) as [[rc stdout] stderr]. cbn [fst snd].
  destruct (rc =? 0)%Z eqn:Hrc; cbn [negb].
  - rewrite bind_run.
    erewrite scan_run;
      [| apply lookup_insert_eq | cbn [heap]; by apply list_lookup_middle
       | apply no_params_has_sections ].
    cbv beta iota. unfold item. rewrite lookup_insert_eq.
    cbn [heap with_heap warnings commands]. 
    rewrite insert_app_r_alt, Nat.sub_diag by done. cbn [insert list_insert].
    rewrite app_nil_r. reflexivity.
  - rewrite bind_run. unfold warn. cbv beta iota. cbn [heap with_heap warnings commands].
    unfold item. rewrite lookup_insert_eq. reflexivity.
Qed.

Lemma query_interface_run exe i values rp s :
  query_interface host exe i (values, rp) s
  = Ok (<[i := length (heap s)]> values,
        rp ++ refs (length (heap s)) (answers host exe (commands s) [i]))
       (after host s exe [i]).
Proof. exact (query_interface_world host exe i values rp s). Qed.

Lemma after_nil s exe : after host s exe [] = s.
Proof. unfold after. simpl. rewrite !app_nil_r. by destruct s. Qed.

Lemma after_cons s exe i l : after host s exe (i :: l) = after host (after host s exe [i]) exe l.
Proof.
  unfold after. cbn [answers fmap list_fmap mjoin list_join warnings commands heap].
  rewrite !app_nil_r, <- !app_assoc. reflexivity.
Qed.

Lemma interfaces_run exe l values rp s :
  exists values',
    for_ l (query_interface host exe) (values, rp) s
    = Ok (values', rp ++ refs (length (heap s)) (answers host exe (commands s) l))
         (after host s exe l).
Proof.
  revert values rp s. induction l as [|i l IH]; intros values rp s.
  - exists values. cbn [for_ answers refs]. by rewrite app_nil_r, after_nil.
  - cbn [for_]. rewrite bind_run, query_interface_run. cbv beta iota.
    destruct (IH (<[i := length (heap s)]> values)
                 (rp ++ refs (length (heap s)) (answers host exe (commands s) [i]))
                 (after host s exe [i])) as [values' ->].
    exists values'. rewrite <- after_cons. f_equal. f_equal.
    rewrite <- app_assoc. f_equal. cbn [answers refs app after heap commands fmap list_fmap].
    rewrite length_app. cbn [length]. by rewrite Nat.add_1_r.
Qed.

Lemma exit_json_run l n acc s :
  (forall k a, l !! k = Some a -> heap s !! (n + k) = Some (params_of a)) ->
  for_ (refs n l)
       (fun r out =>
          d ← load (parameters r);
          mret (out ++ [{| interface := interface r; supported := supported r;
                           parameters := d; msg := msg r |}]))
       acc s
  = Ok (acc ++ facts l) s.
Proof.
  revert n acc. induction l as [|a l IH]; intros n acc Hl.
  - cbn [refs for_ facts fmap list_fmap]. by rewrite app_nil_r.
  - cbn [refs for_]. rewrite bind_run, bind_run. unfold load at 1.
    assert (heap s !! parameters (record_of a n) = Some (params_of a)) as ->.
    { specialize (Hl 0 a eq_refl). rewrite Nat.add_0_r in Hl.
      unfold record_of. by destruct (negb _). }
    cbv beta iota. cbn [mret M_ret]. rewrite IH.
    + unfold facts. cbn [fmap list_fmap]. rewrite <- app_assoc. cbn [app].
      do 3 f_equal. unfold record_of. by destruct (negb _).
    + intros k a' Hk. replace (S n + k) with (n + S k) by lia. by apply Hl.
Qed.

Lemma get_interfaces_returns s :
  exists l s', get_interfaces host s = Ok l s' /\ heap s' = heap s.
Proof.
  unfold get_interfaces. on_host. destruct (isfile host _); [|by eexists _, _].
  rewrite bind_run. unfold run_command. on_host. cbv beta iota.
  destruct (execute host _ _) as [[rc stdout] stderr].
  destruct (rc =? 0)%Z; [by eexists _, _|].
  rewrite bind_run. unfold warn. by eexists _, _.
Qed.

Lemma main_run interfaces exe s l s1 :
  which host (lit "ethtool") = Some exe ->
  match interfaces with [] => get_interfaces host | _ :: _ => mret interfaces end s
    = Ok l s1 ->
  main host interfaces s = Ok (facts (answers host exe (commands s1) l)) (after host s1 exe l).
Proof.
  intros Hexe Hl. unfold main, get_best_parsable_locale. on_host. rewrite bind_run. cbn [mret M_ret]. cbv beta iota zeta. rewrite Hexe, bind_run. cbn [mret M_ret]. cbv beta iota.
  rewrite bind_run, Hl.
  destruct (interfaces_run exe l ∅ [] s1) as [values' Hrun].
  rewrite bind_run, Hrun. cbn [app]. unfold exit_json.
  rewrite exit_json_run; [done|].
  intros k a Hk. unfold after. cbn [heap].
  rewrite lookup_app_r by lia.
  replace (length (heap s1) + k - length (heap s1)) with k by lia.
  by rewrite list_lookup_fmap, Hk.
Qed.

End Runs.

(* ===================================================================== *)
(** ** The records of a run *)
(* ===================================================================== *)

Section Records.
Variable host : Host.
Implicit Types (s : State) (d : gmap (list N) (gmap (list N) (list N))) (values : gmap str nat).
Implicit Types (l interfaces : list str) (exe i : str) (log : list Command).

Lemma answers_app exe log l l' :
  answers host exe log (l ++ l')
  = answers host exe log l ++ answers host exe (log ++ (ethtool_g host exe <$> l)) l'.
Proof.
  revert log. induction l as [|i l IH]; intros log; cbn [app answers fmap list_fmap].
  - by rewrite app_nil_r.
  - rewrite IH, <- app_assoc. reflexivity.
Qed.

Lemma answers_interfaces exe log l : fst <$> answers host exe log l = l.
Proof. revert log. induction l as [|i l IH]; intros log; cbn [answers fmap list_fmap fst]; by rewrite ?IH. Qed.

Lemma length_answers exe log l : length (answers host exe log l) = length l.
Proof. by rewrite <- (answers_interfaces exe log l) at 2; rewrite length_fmap. Qed.

Lemma record_of_interface {P} a (x : P) : interface (record_of a x) = a.1.
Proof. unfold record_of. by destruct (negb _). Qed.

Lemma facts_interfaces exe log l : interface <$> facts (answers host exe log l) = l.
Proof.
  unfold facts. rewrite <- list_fmap_compose.
  rewrite <- (answers_interfaces exe log l) at 2.
  apply list_fmap_ext. intros _ a _. apply record_of_interface.
Qed.

(** A run with [ethtool] installed returns the facts of the resolved list. *)
Lemma main_returns interfaces exe s :
  which host (lit "ethtool") = Some exe ->
  exists l s1,
    main host interfaces s = Ok (facts (answers host exe (commands s1) l)) (after host s1 exe l)
    /\ (interfaces <> [] -> l = interfaces /\ s1 = s).
Proof.
  intros Hexe. destruct interfaces as [|i interfaces].
  - destruct (get_interfaces_returns host s) as (l & s1 & Hl & _).
    exists l, s1. split; [|done]. by apply main_run.
  - exists (i :: interfaces), s. split; [|done]. by apply main_run.
Qed.

Lemma main_Ok_inv interfaces s records s' :
  main host interfaces s = Ok records s' ->
  exists exe l log, records = facts (answers host exe log l).
Proof.
  destruct (which host (lit "ethtool")) as [exe|] eqn:Hexe.
  - destruct (main_returns interfaces exe s Hexe) as (l & s1 & -> & _).
    intros [= <- <-]. eauto.
  - unfold main, get_best_parsable_locale. on_host. rewrite bind_run. cbn [mret M_ret]. cbv beta iota zeta. rewrite Hexe. discriminate.
Qed.
End Records.

(* ===================================================================== *)
(** ** The properties of the module *)
(* ===================================================================== *)

Section Claims.
Implicit Types (host : Host) (s : State) (d : gmap (list N) (gmap (list N) (list N))).
Implicit Types (l interfaces : list str) (exe i : str) (log : list Command).

(** C3. With [ethtool] installed, a run on a non-empty list of interfaces
    returns, and its result has one record per interface of the list, in
    the order of the list, whatever each [ethtool -g] exits with. *)
Theorem main_one_record_per_interface host interfaces exe s :
  interfaces <> [] ->
  which host (lit "ethtool") = Some exe ->
  exists records s',
    main host interfaces s = Ok records s'
    /\ length records = length interfaces
    /\ interface <$> records = interfaces.
Proof.
  intros Hne Hexe.
  destruct (main_returns host interfaces exe s Hexe) as (l & s1 & Hmain & Hl).
  destruct (Hl Hne) as [-> ->].
  eexists _, _. split; [exact Hmain|].
  assert (interface <$> facts (answers host exe (commands s) interfaces) = interfaces) as Hi
    by apply facts_interfaces.
  split; [|done]. by rewrite <- Hi at 2; rewrite length_fmap.
Qed.

Lemma main_one_record_per_interface_witness :
  exists records s',
    main Scenario.eno4_host [lit "eno3"; lit "eno4"; lit "eno3"] initial = Ok records s'
    /\ length records = 3
    /\ interface <$> records = [lit "eno3"; lit "eno4"; lit "eno3"].
Proof.
  apply (main_one_record_per_interface Scenario.eno4_host [lit "eno3"; lit "eno4"; lit "eno3"]
           (lit "/usr/sbin/ethtool") initial).
  - discriminate.
  - reflexivity.
Defined.

Lemma record_of_consistent a :
  let r := record_of a (params_of a) in
  (supported r = false <-> is_Some (msg r))
  /\ (supported r = false -> both_empty (parameters r)
      /\ msg r = Some (lit "Failed to find ringparams")).
Proof.
  unfold record_of, params_of. destruct (negb _); cbn.
  - split; [split; eauto|]. intros _. by split.
  - split; [split; [done|by intros [? ?]]|done].
Qed.

(** C1, as amended. In every record a run returns, [supported] is false
    exactly when [msg] is present, and a record with [supported] false has
    both parameter sets empty. (Empty parameter sets do not make a record
    unsupported: see [support_flag_three_way_fails].) *)
Theorem support_flag_consistency host interfaces s records s' r :
  main host interfaces s = Ok records s' ->
  r ∈ records ->
  (supported r = false <-> is_Some (msg r))
  /\ (supported r = false -> both_empty (parameters r)).
Proof.
  intros (exe & l & log & ->)%main_Ok_inv Hr.
  apply list_elem_of_fmap in Hr as (a & -> & _).
  destruct (record_of_consistent a) as [H1 H2]. split; [done|]. intros H. by apply H2.
Qed.

(** C1 as stated fails: a successful query that prints nothing gives a
    supported record, without [msg], whose parameter sets are both empty. *)
Lemma support_flag_three_way_fails :
  exists r s',
    main Scenario.quiet_host [lit "eno3"] initial = Ok [r] s'
    /\ both_empty (parameters r)
    /\ supported r = true
    /\ msg r = None
    /\ ~ (both_empty (parameters r) <-> supported r = false).
Proof.
  eexists _, _. split; [vm_compute; reflexivity|]. cbn [parameters supported msg].
  split; [split; vm_compute; reflexivity|].
  split; [done|]. split; [done|]. intros [H _]. 
  assert (true = false) as [=]. apply H. split; vm_compute; reflexivity.
Qed.

Lemma support_flag_consistency_witness :
  let r := {| interface := lit "eno4"; supported := false; parameters := no_params;
              msg := Some (lit "Failed to find ringparams") |} in
  (supported r = false <-> is_Some (msg r))
  /\ (supported r = false -> both_empty (parameters r)).
Proof.
  intros r.
  apply (support_flag_consistency Scenario.eno4_host [lit "eno3"; lit "eno4"] initial
           (facts (answers Scenario.eno4_host (lit "/usr/sbin/ethtool") [] [lit "eno3"; lit "eno4"]))
           (after Scenario.eno4_host initial (lit "/usr/sbin/ethtool") [lit "eno3"; lit "eno4"]) r).
  - vm_compute. reflexivity.
  - vm_compute. right. left.
Defined.

(** C7. When [ethtool -g] exits non-zero for the interface [i] of the list
    [l1 ++ i :: l2], the run still returns a record for every interface;
    the record of [i] has [supported] false, both parameter sets empty and
    the fixed [msg]; and the warnings of the run contain the name of [i]
    with the command's stderr, each newline replaced by a full stop. *)
Theorem failed_query_is_flagged host exe s l1 i l2 rc stdout stderr :
  which host (lit "ethtool") = Some exe ->
  execute host (commands s ++ (ethtool_g host exe <$> l1)) (ethtool_g host exe i)
    = (rc, stdout, stderr) ->
  rc <> 0%Z ->
  exists records s',
    main host (l1 ++ i :: l2) s = Ok records s'
    /\ records !! length l1
       = Some {| interface := i; supported := false; parameters := no_params;
                 msg := Some (lit "Failed to find ringparams") |}
    /\ (lit "Unable to run ethtool for " ++ i ++ lit ": " ++ replace newline dot stderr)
         ∈ warnings s'
    /\ interface <$> records = l1 ++ i :: l2.
Proof.
  intros Hexe Hrun Hrc.
  destruct (main_returns host (l1 ++ i :: l2) exe s Hexe) as (l & s1 & Hmain & Hl).
  destruct Hl as [-> ->]; [by destruct l1|].
  eexists _, _. split; [exact Hmain|].
  assert (answers host exe (commands s) (l1 ++ i :: l2) !! length l1
          = Some (i, (rc, stdout, stderr))) as Ha.
  { rewrite answers_app, lookup_app_r by (by rewrite length_answers).
    rewrite length_answers, Nat.sub_diag. cbn [answers]. by rewrite Hrun. }
  assert ((rc =? 0)%Z = false) as Hz by (by apply Z.eqb_neq).
  split; [|split].
  - unfold facts. rewrite list_lookup_fmap, Ha. cbn [fmap option_fmap option_map].
    unfold record_of, params_of. cbn [fst snd]. by rewrite Hz.
  - unfold after. cbn [warnings]. apply elem_of_app. right.
    apply list_elem_of_join. exists (warning_of (i, (rc, stdout, stderr))). split.
    + unfold warning_of. cbn [fst snd]. rewrite Hz. cbn [negb]. left.
    + apply list_elem_of_fmap. eexists. split; [done|]. by eapply list_elem_of_lookup_2.
  - apply facts_interfaces.
Qed.

Lemma failed_query_is_flagged_witness :
  exists records s',
    main Scenario.eno4_host [lit "eno3"; lit "eno4"; lit "eno3"] initial = Ok records s'
    /\ records !! 1
       = Some {| interface := lit "eno4"; supported := false; parameters := no_params;
                 msg := Some (lit "Failed to find ringparams") |}
    /\ lit "Unable to run ethtool for eno4: netlink error: no device matches name.no such device"
         ∈ warnings s'
    /\ interface <$> records = [lit "eno3"; lit "eno4"; lit "eno3"].
Proof.
  apply (failed_query_is_flagged Scenario.eno4_host (lit "/usr/sbin/ethtool") initial
           [lit "eno3"] (lit "eno4") [lit "eno3"] 1%Z []
           (lit "netlink error: no device matches name" ++ [newline] ++ lit "no such device")).
  - reflexivity.
  - vm_compute. reflexivity.
  - lia.
Defined.

End Claims.

Section Discovery.
Implicit Types (host : Host) (s : State).

Lemma discovered_filter (acc : list str) (lines : list str) :
  foldl (fun list_interfaces line =>
           let intf := strip line in
           if negb (eqb intf (lit "lo")) then list_interfaces ++ [intf] else list_interfaces)
        acc lines
  = acc ++ filter (fun intf => intf <> lit "lo") (strip <$> lines).
Proof.
  revert acc. induction lines as [|line lines IH]; intros acc; cbn [foldl fmap list_fmap].
  - by rewrite app_nil_r.
  - rewrite IH. unfold eqb. rewrite filter_cons. 
    destruct (decide (strip line <> lit "lo")) as [Hne|Heq].
    + rewrite bool_decide_eq_false_2 by done. cbn [negb]. by rewrite <- app_assoc.
    + apply dec_stable in Heq. rewrite bool_decide_eq_true_2 by done. done.
Qed.

(** C6. When [/proc/net/dev] is there and the listing command succeeds
    with the lines [eno1], [eno2] and [lo] (each possibly surrounded by
    white space), [get_interfaces] returns [eno1; eno2]; and a run on the
    empty list, with [ethtool] installed, reports these two interfaces in
    that order. *)
Theorem discovery_skips_loopback host s stdout stderr :
  isfile host (lit "/proc/net/dev") = true ->
  execute host (commands s) listing = (0%Z, stdout, stderr) ->
  strip <$> splitlines (strip stdout) = [lit "eno1"; lit "eno2"; lit "lo"] ->
  (exists s', get_interfaces host s = Ok [lit "eno1"; lit "eno2"] s')
  /\ match which host (lit "ethtool") with
     | Some _ =>
         exists records s',
           main host [] s = Ok records s'
           /\ interface <$> records = [lit "eno1"; lit "eno2"]
     | None => True
     end.
Proof.
  intros Hfile Hrun Hlines.
  assert (get_interfaces host s
          = Ok [lit "eno1"; lit "eno2"]
               {| warnings := warnings s; commands := commands s ++ [listing];
                  heap := heap s |}) as Hget.
  { unfold get_interfaces. on_host. rewrite Hfile, bind_run. unfold run_command. on_host. cbv beta iota zeta.
    fold listing. rewrite Hrun. cbv beta iota. cbn [Z.eqb].
    rewrite discovered_filter, Hlines. reflexivity. }
  split; [eauto|].
  destruct (which host (lit "ethtool")) as [exe|] eqn:Hexe; [|done].
  eexists _, _. split.
  - apply (main_run host [] exe s _ _ Hexe Hget).
  - apply facts_interfaces.
Qed.

Lemma discovery_skips_loopback_witness :
  (exists s', get_interfaces Scenario.three_interfaces_host initial = Ok [lit "eno1"; lit "eno2"] s')
  /\ exists records s',
       main Scenario.three_interfaces_host [] initial = Ok records s'
       /\ interface <$> records = [lit "eno1"; lit "eno2"].
Proof.
  apply (discovery_skips_loopback Scenario.three_interfaces_host initial Scenario.proc_net_dev []).
  - reflexivity.
  - reflexivity.
  - vm_compute. reflexivity.
Defined.
End Discovery.

(* ===================================================================== *)
(** ** The scan of one output *)
(* ===================================================================== *)

Section Scan.
Implicit Types (s : State) (d : gmap (list N) (gmap (list N) (list N))) (values : gmap str nat).
Implicit Types (l line key rest section : str) (pre current : bool).

Lemma stored_put_eq section key v d :
  is_Some (d !! section) -> stored (put section key v d) section key = Some v.
Proof.
  intros [inner Hd]. unfold stored, put. rewrite Hd, lookup_insert_eq. cbn.
  apply lookup_insert_eq.
Qed.

Lemma lookup_put_ne section section' key v d :
  section <> section' -> put section key v d !! section' = d !! section'.
Proof. intros Hne. unfold put. destruct (d !! section); [by rewrite lookup_insert_ne|done]. Qed.

Lemma stored_put_ne section section' key key' v d :
  section <> section' \/ key <> key' ->
  stored (put section key v d) section' key' = stored d section' key'.
Proof.
  intros Hne. unfold stored, put. destruct (d !! section) as [inner|] eqn:Hd; [|done].
  destruct (decide (section = section')) as [<-|Hs].
  - rewrite lookup_insert_eq, Hd. cbn. destruct Hne as [?|?]; [done|].
    by rewrite lookup_insert_ne.
  - by rewrite lookup_insert_ne.
Qed.

Lemma after_first_app key rest :
  before colon (key ++ [colon]) = key -> after_first colon (key ++ colon :: rest) = rest.
Proof.
  induction key as [|c key IH]; cbn; [done|].
  destruct (c =? colon)%N; [done|]. intros [= Hk]. by apply IH.
Qed.

Lemma before_no_sep sep rest : sep ∉ rest -> before sep rest = rest.
Proof.
  induction rest as [|c rest IH]; [done|]. intros Hn. cbn.
  apply not_elem_of_cons in Hn as [Hc Hn].
  destruct (c =? sep)%N eqn:E; [apply N.eqb_eq in E; congruence|]. by rewrite IH.
Qed.

Lemma value_of_key key rest :
  before colon (key ++ [colon]) = key ->
  value_of (key ++ colon :: rest) = strip (before colon rest).
Proof. intros Hk. unfold value_of. by rewrite split_second. Qed.

(** A value line is no header and starts with its own key only. *)
Lemma value_line_tests key rest :
  key = lit "RX" \/ key = lit "TX" ->
  let l := key ++ colon :: rest in
  eqb l (lit "Pre-set maximums:") = false
  /\ eqb l (lit "Current hardware settings:") = false
  /\ startswith l (lit "RX:") = bool_decide (key = lit "RX")
  /\ startswith l (lit "TX:") = bool_decide (key = lit "TX").
Proof.
  intros [-> | ->]; cbn zeta; unfold eqb;
    (split; [by apply bool_decide_eq_false_2|]);
    (split; [by apply bool_decide_eq_false_2|]); done.
Qed.

Lemma step_line_value key rest line pre current d :
  key = lit "RX" \/ key = lit "TX" ->
  strip line = key ++ colon :: rest ->
  step_line (pre, current, d) line
  = (pre, current, step_value key (key ++ colon :: rest) pre current d).
Proof.
  intros Hkey Hl. unfold step_line, step_flags. rewrite Hl.
  destruct (value_line_tests key rest Hkey) as (-> & -> & -> & ->).
  by destruct Hkey as [-> | ->].
Qed.

Lemma key_has_no_colon key :
  key = lit "RX" \/ key = lit "TX" -> before colon (key ++ [colon]) = key.
Proof. by intros [-> | ->]. Qed.

(** What a value line stores: shared by the two theorems on value lines. *)
Lemma scan_line_value values i line pre current s p d key rest :
  values !! i = Some p -> heap s !! p = Some d -> has_sections d ->
  key = lit "RX" \/ key = lit "TX" ->
  strip line = key ++ colon :: rest ->
  exists s' d',
    scan_line values i line (pre, current) s = Ok (pre, current) s'
    /\ heap s' !! p = Some d'
    /\ (current = true -> stored d' (lit "current") key = Some (strip (before colon rest)))
    /\ (pre = true -> stored d' (lit "preset") key = Some (strip (before colon rest))).
Proof.
  intros Hv Hp Hd Hkey Hl.
  pose proof (key_has_no_colon key Hkey) as Hk.
  eexists _, _. split; [|split].
  - rewrite (scan_line_run values i line (pre, current) s p d Hv Hp Hd).
    rewrite (step_line_value key rest line pre current d Hkey Hl). reflexivity.
  - cbn [heap with_heap]. apply list_lookup_insert_eq. by eapply lookup_lt_Some.
  - cbn [snd]. unfold step_value. rewrite (value_of_key key rest Hk).
    destruct Hd as [Hc Hpre]. split; intros ->; cbv zeta.
    + destruct pre.
      * rewrite stored_put_ne by (by left). by apply stored_put_eq.
      * by apply stored_put_eq.
    + apply stored_put_eq. destruct current; [|done].
      by rewrite lookup_put_ne.
Qed.

(** C2, as amended. A line whose trimmed form starts with [RX:] (or [TX:])
    stores, in the section whose flag is set, the trimmed text between
    the first colon and the next one (up to the end of the line when
    there is no other colon). This is the whole remainder of the line
    only when the remainder has no colon. *)
Theorem value_is_second_colon_field values i line pre current s p d key :
  values !! i = Some p -> heap s !! p = Some d -> has_sections d ->
  key = lit "RX" \/ key = lit "TX" ->
  startswith (strip line) (key ++ [colon]) = true ->
  exists s' d',
    scan_line values i line (pre, current) s = Ok (pre, current) s'
    /\ heap s' !! p = Some d'
    /\ (current = true ->
        stored d' (lit "current") key
        = Some (strip (before colon (after_first colon (strip line)))))
    /\ (pre = true ->
        stored d' (lit "preset") key
        = Some (strip (before colon (after_first colon (strip line)))))
    /\ (colon ∉ after_first colon (strip line) ->
        strip (before colon (after_first colon (strip line)))
        = strip (after_first colon (strip line))).
Proof.
  intros Hv Hp Hd Hkey [rest Hl]%startswith_app. rewrite <- app_assoc in Hl. cbn [app] in Hl.
  destruct (scan_line_value values i line pre current s p d key rest Hv Hp Hd Hkey Hl)
    as (s' & d' & Hrun & Hp' & Hcur & Hpre).
  rewrite Hl, (after_first_app key rest (key_has_no_colon key Hkey)).
  exists s', d'. repeat split; try done. intros Hn. by rewrite before_no_sep.
Qed.

(** C10. A line whose trimmed form is exactly [RX:] (or [TX:]) stores the
    empty text under that key in the section whose flag is set: the key
    is present afterwards. *)
Theorem bare_key_stores_empty_text values i line pre current s p d key :
  values !! i = Some p -> heap s !! p = Some d -> has_sections d ->
  key = lit "RX" \/ key = lit "TX" ->
  strip line = key ++ [colon] ->
  exists s' d',
    scan_line values i line (pre, current) s = Ok (pre, current) s'
    /\ heap s' !! p = Some d'
    /\ (current = true -> stored d' (lit "current") key = Some [])
    /\ (pre = true -> stored d' (lit "preset") key = Some []).
Proof.
  intros Hv Hp Hd Hkey Hl.
  apply (scan_line_value values i line pre current s p d key [] Hv Hp Hd Hkey Hl).
Qed.

Lemma value_is_second_colon_field_witness :
  exists s' d',
    scan_line Scenario.one_interface (lit "eno3") (lit "  RX:     512  ") (false, true)
              (Scenario.scanning no_params)
    = Ok (false, true) s'
    /\ heap s' !! 0 = Some d'
    /\ (true = true -> stored d' (lit "current") (lit "RX") = Some (lit "512"))
    /\ (false = true -> stored d' (lit "preset") (lit "RX") = Some (lit "512"))
    /\ (colon ∉ lit "     512" -> lit "512" = lit "512").
Proof.
  apply (value_is_second_colon_field Scenario.one_interface (lit "eno3") (lit "  RX:     512  ")
           false true (Scenario.scanning no_params) 0 no_params (lit "RX")).
  - reflexivity.
  - reflexivity.
  - apply no_params_has_sections.
  - left. reflexivity.
  - reflexivity.
Defined.

(** C2 as stated fails: a value followed by an annotation with a colon
    is cut at that colon. *)
Lemma value_is_not_whole_remainder :
  let line := lit "RX:     512 (max: 4096)" in
  exists s' d',
    scan_line Scenario.one_interface (lit "eno3") line (false, true) (Scenario.scanning no_params)
    = Ok (false, true) s'
    /\ heap s' !! 0 = Some d'
    /\ stored d' (lit "current") (lit "RX") = Some (lit "512 (max")
    /\ strip (after_first colon (strip line)) = lit "512 (max: 4096)"
    /\ stored d' (lit "current") (lit "RX") <> Some (strip (after_first colon (strip line))).
Proof.
  eexists _, _. split; [vm_compute; reflexivity|].
  split; [reflexivity|]. split; [vm_compute; reflexivity|].
  split; [vm_compute; reflexivity|]. vm_compute. discriminate.
Qed.

Lemma bare_key_stores_empty_text_witness :
  exists s' d',
    scan_line Scenario.one_interface (lit "eno3") (lit " TX: ") (true, false)
              (Scenario.scanning no_params)
    = Ok (true, false) s'
    /\ heap s' !! 0 = Some d'
    /\ (false = true -> stored d' (lit "current") (lit "TX") = Some [])
    /\ (true = true -> stored d' (lit "preset") (lit "TX") = Some []).
Proof.
  apply (bare_key_stores_empty_text Scenario.one_interface (lit "eno3") (lit " TX: ")
           true false (Scenario.scanning no_params) 0 no_params (lit "TX")).
  - reflexivity.
  - reflexivity.
  - apply no_params_has_sections.
  - right. reflexivity.
  - reflexivity.
Defined.

Lemma for_app {A B} (l l' : list A) (body : A -> B -> M B) acc s :
  for_ (l ++ l') body acc s = (for_ l body acc ≫= for_ l' body) s.
Proof.
  revert acc s. induction l as [|x l IH]; intros acc s; [done|].
  cbn [app for_]. rewrite !bind_run. destruct (body x acc s); [apply IH|done|done|done].
Qed.

Lemma scan_line_no_section values i line s :
  strip line <> lit "Pre-set maximums:" ->
  strip line <> lit "Current hardware settings:" ->
  scan_line values i line (false, false) s = Ok (false, false) s.
Proof.
  intros H1 H2. unfold scan_line, eqb.
  rewrite !bool_decide_eq_false_2 by done.
  rewrite !bind_run. unfold scan_value.
  destruct (startswith (strip line) (lit "RX:")), (startswith (strip line) (lit "TX:")); done.
Qed.

(** C5. Lines read before any section header, [RX:] and [TX:] lines among
    them, change nothing: the scan of such lines returns with both flags
    off in the state it started from, and a scan that starts with such
    lines is the scan of the lines that follow them. *)
Theorem lines_before_any_header_are_ignored values i (lines lines' : list str) s :
  Forall (fun line => strip line <> lit "Pre-set maximums:"
                      /\ strip line <> lit "Current hardware settings:") lines ->
  for_ lines (scan_line values i) (false, false) s = Ok (false, false) s
  /\ for_ (lines ++ lines') (scan_line values i) (false, false) s
     = for_ lines' (scan_line values i) (false, false) s.
Proof.
  intros Hno.
  assert (for_ lines (scan_line values i) (false, false) s = Ok (false, false) s) as Hrun.
  { induction Hno as [|line lines [H1 H2] _ IH]; [done|].
    cbn [for_]. by rewrite bind_run, scan_line_no_section. }
  split; [done|]. by rewrite for_app, bind_run, Hrun.
Qed.

Lemma lines_before_any_header_are_ignored_witness :
  let junk := [lit "Ring parameters for eno3:"; lit "RX:  64"; lit "TX:  64"] in
  let s := Scenario.scanning no_params in
  for_ junk (scan_line Scenario.one_interface (lit "eno3")) (false, false) s = Ok (false, false) s
  /\ for_ (junk ++ splitlines Scenario.eno3_output)
          (scan_line Scenario.one_interface (lit "eno3")) (false, false) s
     = for_ (splitlines Scenario.eno3_output)
            (scan_line Scenario.one_interface (lit "eno3")) (false, false) s.
Proof.
  intros junk s.
  apply (lines_before_any_header_are_ignored Scenario.one_interface (lit "eno3") junk
           (splitlines Scenario.eno3_output) s).
  repeat constructor; discriminate.
Defined.

Lemma step_flags_exclusive l pre current :
  pre && current = false ->
  (step_flags l (pre, current)).1 && (step_flags l (pre, current)).2 = false.
Proof. intros H. unfold step_flags. repeat case_match; simplify_eq/=; done. Qed.

Lemma step_line_flags line pre current d :
  (step_line (pre, current, d) line).1 = step_flags (strip line) (pre, current).
Proof. unfold step_line. by destruct (step_flags _ _). Qed.

Lemma scan_flags_exclusive lines pre current d :
  pre && current = false ->
  (scan (pre, current, d) lines).1.1 && (scan (pre, current, d) lines).1.2 = false.
Proof.
  revert pre current d. induction lines as [|line lines IH]; intros pre current d H; [done|].
  rewrite scan_cons.
  destruct (step_line (pre, current, d) line) as [[pre' current'] d'] eqn:E.
  apply IH. pose proof (step_line_flags line pre current d) as Hf. rewrite E in Hf.
  cbn [fst] in Hf. pose proof (step_flags_exclusive (strip line) pre current H) as Hx.
  by rewrite <- Hf in Hx.
Qed.

Lemma step_value_one_section key l pre current d :
  pre && current = false ->
  step_value key l pre current d !! lit "current" = d !! lit "current"
  \/ step_value key l pre current d !! lit "preset" = d !! lit "preset".
Proof.
  unfold step_value. destruct current, pre; intros [=]; cbv zeta.
  - right. by apply lookup_put_ne.
  - left. by apply lookup_put_ne.
  - by left.
Qed.

Lemma step_line_one_section line pre current d :
  pre && current = false ->
  (step_line (pre, current, d) line).2 !! lit "current" = d !! lit "current"
  \/ (step_line (pre, current, d) line).2 !! lit "preset" = d !! lit "preset".
Proof.
  intros H. unfold step_line.
  pose proof (step_flags_exclusive (strip line) pre current H) as Hx.
  destruct (step_flags (strip line) (pre, current)) as [pre' current']. cbn [fst snd] in *.
  destruct (startswith (strip line) (lit "RX:")) eqn:Hrx.
  - assert (startswith (strip line) (lit "TX:") = false) as ->.
    { apply startswith_app in Hrx as [r ->]. done. }
    by apply step_value_one_section.
  - destruct (startswith (strip line) (lit "TX:")); [|by left].
    by apply step_value_one_section.
Qed.

(** C9. After any lines [lines], and after one more line [line], at most
    one of the two section flags is set; and [line] leaves the [current]
    set or the [preset] set of the interface as it was. *)
Theorem section_flags_are_exclusive values i (lines : list str) line s p d :
  values !! i = Some p -> heap s !! p = Some d -> has_sections d ->
  exists pre1 current1 s1 d1 pre2 current2 s2 d2,
    for_ lines (scan_line values i) (false, false) s = Ok (pre1, current1) s1
    /\ scan_line values i line (pre1, current1) s1 = Ok (pre2, current2) s2
    /\ pre1 && current1 = false
    /\ pre2 && current2 = false
    /\ heap s1 !! p = Some d1
    /\ heap s2 !! p = Some d2
    /\ (d2 !! lit "current" = d1 !! lit "current"
        \/ d2 !! lit "preset" = d1 !! lit "preset").
Proof.
  intros Hv Hp Hd.
  assert (p < length (heap s)) as Hlen by (by eapply lookup_lt_Some).
  pose proof (scan_run values i lines (false, false) s p d Hv Hp Hd) as Hrun.
  pose proof (scan_flags_exclusive lines false false d eq_refl) as Hx.
  pose proof (scan_has_sections lines (false, false) d Hd) as Hd1.
  destruct (scan (false, false, d) lines) as [[pre1 current1] d1]. cbn [fst snd] in *.
  set (s1 := with_heap s (<[p := d1]> (heap s))) in *.
  assert (heap s1 !! p = Some d1) as Hp1 by (by apply list_lookup_insert_eq).
  pose proof (scan_line_run values i line (pre1, current1) s1 p d1 Hv Hp1 Hd1) as Hstep.
  pose proof (step_line_flags line pre1 current1 d1) as Hf.
  pose proof (step_flags_exclusive (strip line) pre1 current1 Hx) as Hx2.
  pose proof (step_line_one_section line pre1 current1 d1 Hx) as Hone.
  destruct (step_line (pre1, current1, d1) line) as [[pre2 current2] d2]. cbn [fst snd] in *.
  rewrite <- Hf in Hx2. cbn [fst snd] in Hx2.
  exists pre1, current1, s1, d1, pre2, current2, (with_heap s1 (<[p := d2]> (heap s1))), d2.
  repeat split; try done.
  cbn [heap with_heap]. apply list_lookup_insert_eq. by eapply lookup_lt_Some.
Qed.

Lemma section_flags_are_exclusive_witness :
  exists pre1 current1 s1 d1 pre2 current2 s2 d2,
    for_ (take 6 (splitlines Scenario.eno3_output))
         (scan_line Scenario.one_interface (lit "eno3")) (false, false) (Scenario.scanning no_params)
    = Ok (pre1, current1) s1
    /\ scan_line Scenario.one_interface (lit "eno3") (lit "RX:             512")
                 (pre1, current1) s1
       = Ok (pre2, current2) s2
    /\ pre1 && current1 = false
    /\ pre2 && current2 = false
    /\ heap s1 !! 0 = Some d1
    /\ heap s2 !! 0 = Some d2
    /\ (d2 !! lit "current" = d1 !! lit "current"
        \/ d2 !! lit "preset" = d1 !! lit "preset").
Proof.
  apply (section_flags_are_exclusive Scenario.one_interface (lit "eno3")
           (take 6 (splitlines Scenario.eno3_output)) (lit "RX:             512")
           (Scenario.scanning no_params) 0 no_params).
  - reflexivity.
  - reflexivity.
  - apply no_params_has_sections.
Defined.

Lemma step_line_current_header line flags d :
  strip line = lit "Current hardware settings:" ->
  step_line (flags, d) line = (false, true, d).
Proof. intros Hl. unfold step_line, step_flags. rewrite Hl. by destruct flags. Qed.

Lemma step_line_preset_header line flags d :
  strip line = lit "Pre-set maximums:" ->
  step_line (flags, d) line = (true, false, d).
Proof. intros Hl. unfold step_line, step_flags. rewrite Hl. by destruct flags. Qed.

Lemma step_value_keeps key l pre current d section key' :
  key <> key' \/ (current = false /\ section <> lit "preset") ->
  stored (step_value key l pre current d) section key' = stored d section key'.
Proof.
  intros H. unfold step_value.
  destruct H as [Hk | [-> Hs]].
  - destruct current, pre; cbv zeta; rewrite ?stored_put_ne by (by right); done.
  - destruct pre; [|done]. by rewrite stored_put_ne by (left; congruence).
Qed.

(** Where a line leaves [current['RX']] as it is: a line that is not an
    [RX:] line, and any line read while the [current] flag is off. *)
Lemma step_line_keeps_current_rx line pre current d :
  startswith (strip line) (lit "RX:") = false
  \/ (step_flags (strip line) (pre, current)).2 = false ->
  stored (step_line (pre, current, d) line).2 (lit "current") (lit "RX")
  = stored d (lit "current") (lit "RX").
Proof.
  intros H. unfold step_line.
  destruct (step_flags (strip line) (pre, current)) as [pre' current']. cbn [snd] in *.
  destruct (startswith (strip line) (lit "TX:")) eqn:Htx.
  - assert (startswith (strip line) (lit "RX:") = false) as ->.
    { apply startswith_app in Htx as [r ->]. done. }
    apply step_value_keeps. by left.
  - destruct (startswith (strip line) (lit "RX:")); [|done].
    destruct H as [?|H]; [done|]. subst current'. apply step_value_keeps. by right.
Qed.

Lemma scan_no_rx_line lines flags d :
  Forall (fun line => startswith (strip line) (lit "RX:") = false) lines ->
  stored (scan (flags, d) lines).2 (lit "current") (lit "RX")
  = stored d (lit "current") (lit "RX").
Proof.
  intros Hno. revert flags d. induction Hno as [|line lines Hline _ IH]; intros flags d; [done|].
  rewrite scan_cons. destruct flags as [pre current].
  rewrite <- (step_line_keeps_current_rx line pre current d) by (by left).
  destruct (step_line (pre, current, d) line) as [flags' d']. apply IH.
Qed.

Lemma scan_current_off lines pre d :
  Forall (fun line => strip line <> lit "Current hardware settings:") lines ->
  stored (scan (pre, false, d) lines).2 (lit "current") (lit "RX")
  = stored d (lit "current") (lit "RX").
Proof.
  intros Hno. revert pre d. induction Hno as [|line lines Hline _ IH]; intros pre d; [done|].
  rewrite scan_cons.
  assert ((step_flags (strip line) (pre, false)).2 = false) as Hoff.
  { unfold step_flags, eqb. rewrite (bool_decide_eq_false_2 _ Hline). by destruct (bool_decide _). }
  rewrite <- (step_line_keeps_current_rx line pre false d) by (by right).
  pose proof (step_line_flags line pre false d) as Hf.
  destruct (step_line (pre, false, d) line) as [[pre' current'] d'].
  cbn [fst] in Hf. rewrite <- Hf in Hoff. cbn [snd] in Hoff. subst current'. apply IH.
Qed.

Lemma scan_current_on lines d :
  Forall (fun line => strip line <> lit "Pre-set maximums:") lines ->
  (scan (false, true, d) lines).1 = (false, true).
Proof.
  intros Hno. revert d. induction Hno as [|line lines Hline _ IH]; intros d; [done|].
  rewrite scan_cons.
  assert (step_flags (strip line) (false, true) = (false, true)) as Hon.
  { unfold step_flags, eqb. rewrite (bool_decide_eq_false_2 _ Hline).
    by destruct (bool_decide _). }
  pose proof (step_line_flags line false true d) as Hf. rewrite Hon in Hf.
  destruct (step_line (false, true, d) line) as [flags' d'].
  cbn [fst] in Hf. subst flags'. apply IH.
Qed.

(** The last [RX:] line read in a [current] section decides [current['RX']]. *)
Lemma scan_last_current_rx lines0 h lines3 rx rest lines4 lines5 flags d :
  has_sections d ->
  strip h = lit "Current hardware settings:" ->
  strip rx = lit "RX:" ++ rest ->
  Forall (fun line => strip line <> lit "Pre-set maximums:") lines3 ->
  Forall (fun line => startswith (strip line) (lit "RX:") = false) lines4 ->
  (lines5 = [] \/ exists line, head lines5 = Some line /\ strip line = lit "Pre-set maximums:") ->
  Forall (fun line => strip line <> lit "Current hardware settings:") lines5 ->
  stored (scan (flags, d) (lines0 ++ h :: lines3 ++ rx :: lines4 ++ lines5)).2
         (lit "current") (lit "RX")
  = Some (strip (before colon rest)).
Proof.
  intros Hd Hh Hrx H3 H4 H5 H5'.
  rewrite scan_app, scan_cons.
  pose proof (scan_has_sections lines0 flags d Hd) as Hd0.
  destruct (scan (flags, d) lines0) as [flags0 d0]. cbn [snd] in Hd0.
  rewrite (step_line_current_header h flags0 d0 Hh).
  rewrite scan_app, scan_cons.
  pose proof (scan_current_on lines3 d0 H3) as Hon.
  pose proof (scan_has_sections lines3 (false, true) d0 Hd0) as Hd3.
  destruct (scan (false, true, d0) lines3) as [flags3 d3]. cbn [fst snd] in Hon, Hd3.
  subst flags3.
  rewrite (step_line_value (lit "RX") rest rx false true d3) by (eauto; by left).
  rewrite scan_app.
  set (d4 := step_value (lit "RX") (lit "RX" ++ colon :: rest) false true d3).
  assert (stored d4 (lit "current") (lit "RX") = Some (strip (before colon rest))) as Hv.
  { unfold d4, step_value. cbv zeta. rewrite (value_of_key (lit "RX") rest eq_refl).
    apply stored_put_eq. apply Hd3. }
  pose proof (scan_no_rx_line lines4 (false, true) d4 H4) as Hk4. rewrite Hv in Hk4.
  destruct (scan (false, true, d4) lines4) as [flags4 d5]. cbn [snd] in Hk4.
  destruct H5 as [-> | (line & Hhead & Hline)]; [done|].
  destruct lines5 as [|line' lines5]; [done|]. injection Hhead as E. subst line'.
  rewrite scan_cons, (step_line_preset_header line flags4 d5 Hline).
  rewrite scan_current_off; [done|]. by inversion H5'.
Qed.

(** C4. When [Current hardware settings:] appears twice ([h1], [h2]), each
    time followed by an [RX:] line of its section ([rx1], [rx2]), and
    [rx2] is the last [RX:] line read in a [current] section (what follows
    it has no [RX:] line before a [Pre-set maximums:] header and no
    further [Current hardware settings:] header), the scan ends with the
    value of [rx2] in [current['RX']]. *)
Theorem last_current_section_wins values i s p d
    (lines0 lines1 lines2 lines3 lines4 lines5 : list str) h1 rx1 h2 rx2 rest1 rest2 :
  values !! i = Some p -> heap s !! p = Some d -> has_sections d ->
  strip h1 = lit "Current hardware settings:" ->
  strip rx1 = lit "RX:" ++ rest1 ->
  strip h2 = lit "Current hardware settings:" ->
  strip rx2 = lit "RX:" ++ rest2 ->
  Forall (fun line => strip line <> lit "Pre-set maximums:") lines3 ->
  Forall (fun line => startswith (strip line) (lit "RX:") = false) lines4 ->
  (lines5 = [] \/ exists line, head lines5 = Some line /\ strip line = lit "Pre-set maximums:") ->
  Forall (fun line => strip line <> lit "Current hardware settings:") lines5 ->
  exists flags s' d',
    for_ (lines0 ++ h1 :: lines1 ++ rx1 :: lines2 ++ h2 :: lines3 ++ rx2 :: lines4 ++ lines5)
         (scan_line values i) (false, false) s
    = Ok flags s'
    /\ heap s' !! p = Some d'
    /\ stored d' (lit "current") (lit "RX") = Some (strip (before colon rest2)).
Proof.
  intros Hv Hp Hd Hh1 Hrx1 Hh2 Hrx2 H3 H4 H5 H5'.
  eexists _, _, _. split; [by apply (scan_run values i _ (false, false) s p d)|].
  split.
  - cbn [heap with_heap]. apply list_lookup_insert_eq. by eapply lookup_lt_Some.
  - replace (lines0 ++ h1 :: lines1 ++ rx1 :: lines2 ++ h2 :: lines3 ++ rx2 :: lines4 ++ lines5)
      with ((lines0 ++ h1 :: lines1 ++ rx1 :: lines2) ++ h2 :: lines3 ++ rx2 :: lines4 ++ lines5)
      by (rewrite <- !app_assoc; cbn [app]; rewrite <- !app_assoc; reflexivity).
    by apply scan_last_current_rx.
Qed.

Lemma last_current_section_wins_witness :
  exists flags s' d',
    for_ ([lit "Pre-set maximums:"; lit "RX:  4096"; lit "TX:  4096"]
          ++ lit "Current hardware settings:"
          :: [] ++ lit "RX:  256"
          :: [lit "TX:  256"] ++ lit "  Current hardware settings:  "
          :: [lit "RX Mini:  n/a"] ++ lit "RX:  512"
          :: [lit "RX Jumbo:  n/a"; lit "TX:  512"]
          ++ [lit "Pre-set maximums:"; lit "RX:  8192"])
         (scan_line Scenario.one_interface (lit "eno3")) (false, false)
         (Scenario.scanning no_params)
    = Ok flags s'
    /\ heap s' !! 0 = Some d'
    /\ stored d' (lit "current") (lit "RX") = Some (lit "512").
Proof.
  apply (last_current_section_wins Scenario.one_interface (lit "eno3")
           (Scenario.scanning no_params) 0 no_params
           [lit "Pre-set maximums:"; lit "RX:  4096"; lit "TX:  4096"]
           [] [lit "TX:  256"] [lit "RX Mini:  n/a"]
           [lit "RX Jumbo:  n/a"; lit "TX:  512"]
           [lit "Pre-set maximums:"; lit "RX:  8192"]
           (lit "Current hardware settings:") (lit "RX:  256")
           (lit "  Current hardware settings:  ") (lit "RX:  512")
           (lit "  256") (lit "  512")).
  - reflexivity.
  - reflexivity.
  - apply no_params_has_sections.
  - reflexivity.
  - reflexivity.
  - reflexivity.
  - reflexivity.
  - repeat constructor; discriminate.
  - repeat constructor.
  - right. eexists. split; reflexivity.
  - repeat constructor; discriminate.
Defined.

End Scan.

(* ===================================================================== *)
(** ** Further properties of the module *)
(* ===================================================================== *)

Section MoreStrings.
Implicit Types (s u v : str) (c sep : char) (P : char -> Prop).

Lemma lstrip_idemp s : lstrip (lstrip s) = lstrip s.
Proof.
  induction s as [|c s IH]; [done|]. cbn [lstrip].
  destruct (isspace c) eqn:E; [done|]. cbn [lstrip]. by rewrite E.
Qed.

Lemma lstrip_snoc s c : isspace c = false -> lstrip (s ++ [c]) = lstrip s ++ [c].
Proof.
  intros Hc. induction s as [|a s IH]; cbn [app lstrip].
  - by rewrite Hc.
  - by destruct (isspace a).
Qed.

Lemma rstrip_cons s c : isspace c = false -> rstrip (c :: s) = c :: rstrip s.
Proof.
  intros Hc. unfold rstrip. rewrite reverse_cons, lstrip_snoc by done.
  by rewrite reverse_app.
Qed.

Lemma rstrip_idemp s : rstrip (rstrip s) = rstrip s.
Proof. unfold rstrip. by rewrite reverse_involutive, lstrip_idemp. Qed.

Lemma lstrip_rstrip_fixed s : lstrip s = s -> lstrip (rstrip s) = rstrip s.
Proof.
  destruct s as [|c s]; [done|]. cbn [lstrip].
  destruct (isspace c) eqn:E.
  - intros Heq. exfalso.
    assert (length (lstrip s) <= length s) as Hlen.
    { clear. induction s as [|a s IH]; cbn [lstrip]; [done|].
      destruct (isspace a); cbn [length]; lia. }
    rewrite Heq in Hlen. cbn [length] in Hlen. lia.
  - intros _. rewrite rstrip_cons by done. cbn [lstrip]. by rewrite E.
Qed.

(** [s.strip().strip() == s.strip()] *)
Lemma strip_idemp s : strip (strip s) = strip s.
Proof.
  unfold strip. rewrite (lstrip_rstrip_fixed (lstrip s)) by apply lstrip_idemp.
  apply rstrip_idemp.
Qed.

Lemma lstrip_Forall P s : Forall P s -> Forall P (lstrip s).
Proof.
  induction 1 as [|c s Hc Hs IH]; cbn [lstrip]; [done|].
  destruct (isspace c); [done|]. by constructor.
Qed.

Lemma strip_Forall P s : Forall P s -> Forall P (strip s).
Proof.
  intros H. unfold strip, rstrip.
  apply Forall_reverse, lstrip_Forall, Forall_reverse. by apply lstrip_Forall.
Qed.

Lemma split_Forall P sep s : Forall P s -> Forall (Forall P) (split sep s).
Proof.
  induction 1 as [|c s Hc Hs IH]; cbn [split]; [by repeat constructor|].
  destruct (c =? sep)%N; [by constructor|].
  destruct (split sep s) as [|w ws]; [by repeat constructor|].
  inversion IH; subst. constructor; [by constructor|done].
Qed.

Lemma split_no_sep sep s : Forall (fun f => sep ∉ f) (split sep s).
Proof.
  induction s as [|c s IH]; cbn [split].
  - repeat constructor. apply not_elem_of_nil.
  - destruct (c =? sep)%N eqn:E.
    + constructor; [apply not_elem_of_nil|done].
    + destruct (split sep s) as [|w ws].
      * repeat constructor. apply N.eqb_neq in E.
        intros [?|[]%elem_of_nil]%elem_of_cons. congruence.
      * inversion IH; subst. constructor; [|done].
        apply N.eqb_neq in E. intros [?|?]%elem_of_cons; [congruence|done].
Qed.

Lemma splitlines_from_Forall after_cr cur s :
  Forall (fun c => islinebreak c = false) cur ->
  Forall (Forall (fun c => islinebreak c = false)) (splitlines_from after_cr cur s).
Proof.
  revert after_cr cur. induction s as [|c s IH]; intros after_cr cur Hcur; cbn [splitlines_from].
  - destruct cur; [done|]. repeat constructor. by apply Forall_reverse.
  - destruct (after_cr && (c =? 10)%N); [by apply IH|].
    destruct (islinebreak c) eqn:E.
    + constructor; [by apply Forall_reverse|]. by apply IH.
    + apply IH. by constructor.
Qed.

(** No line of [s.splitlines()] has a line boundary in it. *)
Lemma splitlines_Forall s :
  Forall (Forall (fun c => islinebreak c = false)) (splitlines s).
Proof. by apply splitlines_from_Forall. Qed.

End MoreStrings.

Section MoreScan.
Implicit Types (s : State) (d : gmap str (gmap str str)) (values : gmap str nat).
Implicit Types (l line key rest section : str) (pre current : bool) (lines : list str).

Lemma relevant_false line :
  relevant line = false ->
  eqb (strip line) (lit "Pre-set maximums:") = false
  /\ eqb (strip line) (lit "Current hardware settings:") = false
  /\ startswith (strip line) (lit "RX:") = false
  /\ startswith (strip line) (lit "TX:") = false.
Proof.
  unfold relevant. cbv zeta. intros H.
  apply orb_false_iff in H as [H H4]. apply orb_false_iff in H as [H H3].
  apply orb_false_iff in H as [H1 H2]. done.
Qed.

Lemma scan_line_irrelevant values i line flags s :
  relevant line = false -> scan_line values i line flags s = Ok flags s.
Proof.
  intros (H1 & H2 & H3 & H4)%relevant_false. unfold scan_line. destruct flags as [pre current].
  by rewrite H1, H2, H3, H4.
Qed.

(** X11. The scan looks at section headers and at lines that start with
    [RX:] or [TX:] only: dropping every other line from the output (the
    title line, [RX Mini:], [RX Jumbo:], blank lines) changes neither the
    flags nor the state the scan ends with, nor whether it returns. *)
Theorem scan_skips_other_lines values i lines flags s :
  for_ lines (scan_line values i) flags s
  = for_ (filter (fun line => relevant line = true) lines) (scan_line values i) flags s.
Proof.
  revert flags s. induction lines as [|line lines IH]; intros flags s; [done|].
  rewrite filter_cons. destruct (decide (relevant line = true)) as [Hr|Hr].
  - cbn [for_]. rewrite !bind_run. destruct (scan_line values i line flags s); [apply IH|done|done|done].
  - apply not_true_is_false in Hr. cbn [for_].
    rewrite bind_run, scan_line_irrelevant by done. apply IH.
Qed.

Lemma step_line_irrelevant line flags d :
  relevant line = false -> step_line (flags, d) line = (flags, d).
Proof.
  intros (H1 & H2 & H3 & H4)%relevant_false. unfold step_line, step_flags.
  destruct flags as [pre current]. by rewrite H1, H2, H3, H4.
Qed.

Lemma scan_filter lines st :
  scan st lines = scan st (filter (fun line => relevant line = true) lines).
Proof.
  revert st. induction lines as [|line lines IH]; intros st; [done|].
  rewrite filter_cons. destruct (decide (relevant line = true)) as [Hr|Hr].
  - rewrite !scan_cons. apply IH.
  - apply not_true_is_false in Hr. rewrite scan_cons. destruct st as [flags d].
    rewrite step_line_irrelevant by done. apply IH.
Qed.

Lemma put_insert_eq section key v inner d :
  put section key v (<[section := inner]> d) = <[section := <[key := v]> inner]> d.
Proof. unfold put. by rewrite lookup_insert_eq, insert_insert_eq. Qed.

Lemma put_insert_ne section section' key v inner d :
  section <> section' ->
  put section key v (<[section' := inner]> d) = <[section' := inner]> (put section key v d).
Proof.
  intros Hne. unfold put. rewrite lookup_insert_ne by done.
  destruct (d !! section); [|done]. by apply insert_insert_ne.
Qed.

(** A run on one interface whose command exits 0. *)
Lemma main_single host exe i s stdout stderr :
  which host (lit "ethtool") = Some exe ->
  execute host (commands s) (ethtool_g host exe i) = (0%Z, stdout, stderr) ->
  main host [i] s
  = Ok [{| interface := i; supported := true; parameters := parse stdout; msg := None |}]
       (after host s exe [i]).
Proof.
  intros Hexe Hrun. rewrite (main_run host [i] exe s [i] s Hexe eq_refl).
  unfold facts. cbn [answers fmap list_fmap]. rewrite Hrun. reflexivity.
Qed.

(** X12. An output whose relevant lines are, in this order, the
    [Pre-set maximums:] header, an [RX:] and a [TX:] line, the
    [Current hardware settings:] header, an [RX:] and a [TX:] line (with
    any other lines between them) gives one supported record holding
    exactly these four values, each trimmed and cut at a further colon. *)
Theorem documented_output_is_parsed host exe i s stdout stderr
    hp rx1 tx1 hc rx2 tx2 r1 t1 r2 t2 :
  which host (lit "ethtool") = Some exe ->
  execute host (commands s) (ethtool_g host exe i) = (0%Z, stdout, stderr) ->
  filter (fun line => relevant line = true) (splitlines (strip stdout))
    = [hp; rx1; tx1; hc; rx2; tx2] ->
  strip hp = lit "Pre-set maximums:" ->
  strip rx1 = lit "RX:" ++ r1 -> strip tx1 = lit "TX:" ++ t1 ->
  strip hc = lit "Current hardware settings:" ->
  strip rx2 = lit "RX:" ++ r2 -> strip tx2 = lit "TX:" ++ t2 ->
  exists s',
    main host [i] s
    = Ok [{| interface := i; supported := true;
             parameters :=
               <[lit "preset" := <[lit "TX" := strip (before colon t1)]>
                                   (<[lit "RX" := strip (before colon r1)]> ∅)]>
               (<[lit "current" := <[lit "TX" := strip (before colon t2)]>
                                     (<[lit "RX" := strip (before colon r2)]> ∅)]> ∅);
             msg := None |}] s'.
Proof.
  intros Hexe Hrun Hlines Hhp Hrx1 Htx1 Hhc Hrx2 Htx2.
  eexists. rewrite (main_single host exe i s stdout stderr Hexe Hrun).
  do 3 f_equal. unfold parse. rewrite scan_filter, Hlines.
  rewrite !scan_cons.
  rewrite (step_line_preset_header hp _ _ Hhp).
  rewrite (step_line_value (lit "RX") r1 rx1 true false _ (or_introl eq_refl) Hrx1).
  rewrite (step_line_value (lit "TX") t1 tx1 true false _ (or_intror eq_refl) Htx1).
  rewrite (step_line_current_header hc _ _ Hhc).
  rewrite (step_line_value (lit "RX") r2 rx2 false true _ (or_introl eq_refl) Hrx2).
  rewrite (step_line_value (lit "TX") t2 tx2 false true _ (or_intror eq_refl) Htx2).
  cbn [scan foldl snd]. unfold step_value. cbv zeta. cbn match.
  rewrite !(value_of_key (lit "RX")), !(value_of_key (lit "TX")) by done.
  unfold no_params.
  rewrite !put_insert_eq.
  rewrite (put_insert_ne (lit "current") (lit "preset")) by done. rewrite put_insert_eq.
  rewrite (put_insert_ne (lit "current") (lit "preset")) by done. rewrite put_insert_eq.
  reflexivity.
Qed.
End MoreScan.

Section MoreRecords.
Implicit Types (host : Host) (s : State) (d : gmap str (gmap str str)).
Implicit Types (l interfaces : list str) (exe i : str) (log : list Command).

(** X3. [get_interfaces] always returns; no name it returns is [lo], every
    name is trimmed, and no parameter dict is touched. *)
Theorem discovered_names_are_trimmed_and_not_lo host s :
  exists l s',
    get_interfaces host s = Ok l s'
    /\ (lit "lo" ∉ l)
    /\ Forall (fun intf => strip intf = intf) l
    /\ heap s' = heap s.
Proof.
  unfold get_interfaces. on_host. destruct (isfile host _).
  - rewrite bind_run. unfold run_command. on_host. cbv beta iota zeta.
    destruct (execute host _ _) as [[rc stdout] stderr].
    destruct (rc =? 0)%Z.
    + eexists _, _. split; [reflexivity|]. rewrite discovered_filter. cbn [app].
      split; [|split; [|done]].
      * intros [Hne _]%list_elem_of_filter. done.
      * apply Forall_forall. intros intf [_ Hin]%list_elem_of_filter.
        apply list_elem_of_fmap in Hin as (line & -> & _). apply strip_idemp.
    + rewrite bind_run. eexists _, _. split; [reflexivity|].
      split; [apply not_elem_of_nil|]. split; [constructor|done].
  - eexists _, _. split; [reflexivity|].
    split; [apply not_elem_of_nil|]. split; [constructor|done].
Qed.

Lemma warnings_count (l : list (str * (Z * str * str))) :
  length (mjoin (warning_of <$> l))
  = length (filter (fun r => supported r = false) (facts l)).
Proof.
  induction l as [|a l IH]; [done|]. unfold facts in *.
  change (warning_of <$> a :: l) with (warning_of a :: (warning_of <$> l)).
  change (mjoin (warning_of a :: (warning_of <$> l)))
    with (warning_of a ++ mjoin (warning_of <$> l)).
  rewrite fmap_cons, length_app, filter_cons, IH.
  unfold warning_of, record_of. destruct (negb _); cbn [supported].
  - rewrite decide_True by done. reflexivity.
  - rewrite decide_False by done. reflexivity.
Qed.

(** X5. On a non-empty list, with [ethtool] installed, a run on a host
    calls [module.warn] as many times as it returns records with
    [supported] false: once for each of them, a message given before
    included. *)
Theorem one_warning_per_failed_record host exe interfaces s :
  interfaces <> [] ->
  which host (lit "ethtool") = Some exe ->
  exists records s',
    main host interfaces s = Ok records s'
    /\ length (warnings s')
       = length (warnings s) + length (filter (fun r => supported r = false) records).
Proof.
  intros Hne Hexe.
  destruct (main_returns host interfaces exe s Hexe) as (l & s1 & Hmain & Hl).
  destruct (Hl Hne) as [-> ->]. eexists _, _. split; [exact Hmain|].
  unfold after. cbn [warnings]. by rewrite length_app, warnings_count.
Qed.

Lemma one_warning_per_failed_record_witness :
  exists records s',
    main Scenario.flapping_host [lit "eno3"; lit "eno3"; lit "eno3"] initial = Ok records s'
    /\ length (warnings s')
       = 0 + length (filter (fun r => supported r = false) records).
Proof.
  apply (one_warning_per_failed_record Scenario.flapping_host (lit "/usr/sbin/ethtool")
           [lit "eno3"; lit "eno3"; lit "eno3"] initial).
  - discriminate.
  - reflexivity.
Defined.

(** X6. The record of an interface is the record of a run on that
    interface alone, started after the commands of the interfaces before
    it: no other interface of the list, the same name listed again
    included, changes it. *)
Theorem record_depends_on_its_own_answer host exe l1 i l2 s :
  which host (lit "ethtool") = Some exe ->
  exists records s' r s1',
    main host (l1 ++ i :: l2) s = Ok records s'
    /\ main host [i]
            {| warnings := warnings s;
               commands := commands s ++ (ethtool_g host exe <$> l1);
               heap := heap s |}
       = Ok [r] s1'
    /\ records !! length l1 = Some r.
Proof.
  intros Hexe.
  destruct (main_returns host (l1 ++ i :: l2) exe s Hexe) as (l & s1 & Hmain & Hl).
  destruct Hl as [-> ->]; [by destruct l1|].
  eexists _, _, _, _. split; [exact Hmain|]. split.
  - rewrite (main_run host [i] exe _ [i] _ Hexe eq_refl). reflexivity.
  - unfold facts. rewrite list_lookup_fmap, answers_app.
    rewrite lookup_app_r by (by rewrite length_answers).
    rewrite length_answers, Nat.sub_diag. reflexivity.
Qed.

Lemma record_depends_on_its_own_answer_witness :
  exists records s' r s1',
    main Scenario.flapping_host ([lit "eno3"] ++ lit "eno3" :: [lit "eno3"]) initial
    = Ok records s'
    /\ main Scenario.flapping_host [lit "eno3"]
            {| warnings := [];
               commands := [ethtool_g Scenario.flapping_host (lit "/usr/sbin/ethtool") (lit "eno3")];
               heap := [] |}
       = Ok [r] s1'
    /\ records !! 1 = Some r.
Proof.
  apply (record_depends_on_its_own_answer Scenario.flapping_host (lit "/usr/sbin/ethtool")
           [lit "eno3"] (lit "eno3") [lit "eno3"] initial).
  reflexivity.
Defined.
End MoreRecords.

Section MoreParse.
Implicit Types (host : Host) (s : State) (d : gmap str (gmap str str)).
Implicit Types (values : gmap str nat) (lines : list str).
Implicit Types (l line key rest section v i exe : str) (pre current : bool).

(* ---- a section whose header is missing ---- *)

Lemma step_line_section_off line pre current d :
  (step_flags (strip line) (pre, current)).2 = false ->
  (step_line (pre, current, d) line).2 !! lit "current" = d !! lit "current".
Proof.
  intros Hoff. unfold step_line.
  destruct (step_flags (strip line) (pre, current)) as [pre' current']. cbn [snd] in *.
  subst current'. unfold step_value. cbv zeta.
  repeat case_match; rewrite ?lookup_put_ne by done; done.
Qed.

Lemma step_line_preset_off line pre current d :
  (step_flags (strip line) (pre, current)).1 = false ->
  (step_line (pre, current, d) line).2 !! lit "preset" = d !! lit "preset".
Proof.
  intros Hoff. unfold step_line.
  destruct (step_flags (strip line) (pre, current)) as [pre' current']. cbn [fst snd] in *.
  subst pre'. unfold step_value. cbv zeta.
  repeat case_match; rewrite ?lookup_put_ne by done; done.
Qed.

Lemma scan_without_current_header lines pre d :
  Forall (fun line => strip line <> lit "Current hardware settings:") lines ->
  (scan (pre, false, d) lines).2 !! lit "current" = d !! lit "current".
Proof.
  intros Hno. revert pre d. induction Hno as [|line lines Hline _ IH]; intros pre d; [done|].
  rewrite scan_cons.
  assert ((step_flags (strip line) (pre, false)).2 = false) as Hoff.
  { unfold step_flags, eqb. rewrite (bool_decide_eq_false_2 _ Hline).
    by destruct (bool_decide _). }
  rewrite <- (step_line_section_off line pre false d Hoff).
  pose proof (step_line_flags line pre false d) as Hf.
  destruct (step_line (pre, false, d) line) as [[pre' current'] d'].
  cbn [fst] in Hf. rewrite <- Hf in Hoff. cbn [snd] in Hoff. subst current'. apply IH.
Qed.

Lemma scan_without_preset_header lines current d :
  Forall (fun line => strip line <> lit "Pre-set maximums:") lines ->
  (scan (false, current, d) lines).2 !! lit "preset" = d !! lit "preset".
Proof.
  intros Hno. revert current d.
  induction Hno as [|line lines Hline _ IH]; intros current d; [done|].
  rewrite scan_cons.
  assert ((step_flags (strip line) (false, current)).1 = false) as Hoff.
  { unfold step_flags, eqb. rewrite (bool_decide_eq_false_2 _ Hline).
    by destruct (bool_decide _). }
  rewrite <- (step_line_preset_off line false current d Hoff).
  pose proof (step_line_flags line false current d) as Hf.
  destruct (step_line (false, current, d) line) as [[pre' current'] d'].
  cbn [fst] in Hf. rewrite <- Hf in Hoff. cbn [fst] in Hoff. subst pre'. apply IH.
Qed.

(** X7. A query that exits 0 gives a supported record without [msg], in
    which a section whose header is on no line of the output is there
    and empty. *)
Theorem section_without_header_stays_empty host exe i s stdout stderr :
  which host (lit "ethtool") = Some exe ->
  execute host (commands s) (ethtool_g host exe i) = (0%Z, stdout, stderr) ->
  exists r s',
    main host [i] s = Ok [r] s'
    /\ supported r = true
    /\ msg r = None
    /\ (Forall (fun line => strip line <> lit "Current hardware settings:")
               (splitlines (strip stdout)) ->
        parameters r !! lit "current" = Some ∅)
    /\ (Forall (fun line => strip line <> lit "Pre-set maximums:")
               (splitlines (strip stdout)) ->
        parameters r !! lit "preset" = Some ∅).
Proof.
  intros Hexe Hrun. eexists _, _.
  split; [apply (main_single host exe i s stdout stderr Hexe Hrun)|].
  cbn [supported msg parameters]. split; [done|]. split; [done|]. unfold parse. split; intros Hno.
  - by rewrite scan_without_current_header.
  - by rewrite scan_without_preset_header.
Qed.

Lemma section_without_header_stays_empty_witness :
  exists r s',
    main Scenario.preset_only_host [lit "eno3"] initial = Ok [r] s'
    /\ supported r = true
    /\ parameters r !! lit "current" = Some ∅.
Proof.
  destruct (section_without_header_stays_empty Scenario.preset_only_host
              (lit "/usr/sbin/ethtool") (lit "eno3") initial
              (lit "Pre-set maximums:" ++ Scenario.nl ++ lit "RX:   4096" ++ Scenario.nl) []
              eq_refl eq_refl) as (r & s' & Hmain & Hsup & _ & Hcur & _).
  exists r, s'. split; [exact Hmain|]. split; [exact Hsup|].
  apply Hcur. repeat constructor; discriminate.
Defined.

(* ---- a key no line gives ---- *)

Lemma step_line_keeps_key line pre current d key section :
  key = lit "RX" \/ key = lit "TX" ->
  startswith (strip line) (key ++ [colon]) = false ->
  stored (step_line (pre, current, d) line).2 section key = stored d section key.
Proof.
  intros Hkey Hno. unfold step_line.
  destruct (step_flags (strip line) (pre, current)) as [pre' current']. cbn [snd].
  destruct Hkey as [-> | ->].
  - change (lit "RX" ++ [colon]) with (lit "RX:") in Hno. rewrite Hno.
    destruct (startswith (strip line) (lit "TX:")); [|done].
    apply step_value_keeps. by left.
  - change (lit "TX" ++ [colon]) with (lit "TX:") in Hno. rewrite Hno.
    destruct (startswith (strip line) (lit "RX:")); [|done].
    apply step_value_keeps. by left.
Qed.

Lemma scan_keeps_key lines flags d key section :
  key = lit "RX" \/ key = lit "TX" ->
  Forall (fun line => startswith (strip line) (key ++ [colon]) = false) lines ->
  stored (scan (flags, d) lines).2 section key = stored d section key.
Proof.
  intros Hkey Hno. revert flags d.
  induction Hno as [|line lines Hline _ IH]; intros flags d; [done|].
  rewrite scan_cons. destruct flags as [pre current].
  rewrite <- (step_line_keeps_key line pre current d key section Hkey Hline).
  destruct (step_line (pre, current, d) line) as [flags' d']. apply IH.
Qed.

(** X8. When no line of the output of a query that exits 0 starts with
    [RX:] (or [TX:]), neither section of the record has that key: a
    missing value is left out, not given a default. *)
Theorem key_without_line_is_absent host exe i s stdout stderr key :
  which host (lit "ethtool") = Some exe ->
  execute host (commands s) (ethtool_g host exe i) = (0%Z, stdout, stderr) ->
  key = lit "RX" \/ key = lit "TX" ->
  Forall (fun line => startswith (strip line) (key ++ [colon]) = false)
         (splitlines (strip stdout)) ->
  exists r s',
    main host [i] s = Ok [r] s'
    /\ stored (parameters r) (lit "current") key = None
    /\ stored (parameters r) (lit "preset") key = None.
Proof.
  intros Hexe Hrun Hkey Hno. eexists _, _.
  split; [apply (main_single host exe i s stdout stderr Hexe Hrun)|].
  cbn [parameters]. unfold parse. rewrite !scan_keeps_key by done. done.
Qed.

Lemma key_without_line_is_absent_witness :
  exists r s',
    main Scenario.preset_only_host [lit "eno3"] initial = Ok [r] s'
    /\ stored (parameters r) (lit "current") (lit "TX") = None
    /\ stored (parameters r) (lit "preset") (lit "TX") = None.
Proof.
  apply (key_without_line_is_absent Scenario.preset_only_host (lit "/usr/sbin/ethtool")
           (lit "eno3") initial
           (lit "Pre-set maximums:" ++ Scenario.nl ++ lit "RX:   4096" ++ Scenario.nl) []
           (lit "TX")).
  - reflexivity.
  - reflexivity.
  - right. reflexivity.
  - repeat constructor.
Defined.
End MoreParse.

Lemma record_of_parameters {P} a (x : P) : parameters (record_of a x) = x.
Proof. unfold record_of. by destruct (negb _). Qed.

Section MoreInvariants.
Implicit Types (host : Host) (s : State) (d : gmap str (gmap str str)).
Implicit Types (values : gmap str nat) (lines : list str).
Implicit Types (l line key rest section v i exe : str) (pre current : bool).

(* ---- the shape of the parameters ---- *)

Lemma no_params_well_shaped : well_shaped no_params.
Proof.
  split.
  - unfold no_params. rewrite !dom_insert_L, dom_empty_L. set_solver.
  - intros section inner. unfold no_params. rewrite lookup_insert.
    case_decide; [intros [= <-]; set_solver|].
    rewrite lookup_insert. case_decide; [intros [= <-]; set_solver|].
    by rewrite lookup_empty.
Qed.

Lemma put_well_shaped section key v d :
  key = lit "RX" \/ key = lit "TX" -> well_shaped d -> well_shaped (put section key v d).
Proof.
  intros Hkey [Hdom Hin]. unfold put. destruct (d !! section) as [inner|] eqn:Hd; [|done].
  split.
  - rewrite dom_insert_L. assert (section ∈ dom d) by (apply elem_of_dom; eauto). set_solver.
  - intros section' inner'. rewrite lookup_insert. case_decide as Hs.
    + intros [= <-]. rewrite dom_insert_L. specialize (Hin section inner Hd).
      destruct Hkey as [-> | ->]; set_solver.
    + apply Hin.
Qed.

Lemma step_line_well_shaped line flags d :
  well_shaped d -> well_shaped (step_line (flags, d) line).2.
Proof.
  intros Hd. unfold step_line. destruct (step_flags _ _) as [pre current]. cbn [snd].
  unfold step_value.
  repeat case_match; repeat apply put_well_shaped; auto.
Qed.

Lemma scan_well_shaped lines flags d :
  well_shaped d -> well_shaped (scan (flags, d) lines).2.
Proof.
  revert flags d. induction lines as [|line lines IH]; intros flags d Hd; [done|].
  rewrite scan_cons. destruct (step_line (flags, d) line) as [flags' d'] eqn:E.
  apply IH. change d' with (flags', d').2. rewrite <- E. by apply step_line_well_shaped.
Qed.

Lemma params_of_well_shaped a : well_shaped (params_of a).
Proof.
  unfold params_of, parse. destruct (negb _); [apply no_params_well_shaped|].
  apply scan_well_shaped, no_params_well_shaped.
Qed.

(** X9. In every record a run returns, [parameters] has the keys
    [current] and [preset] and no other, and a section has no key but
    [RX] and [TX]. *)
Theorem parameters_are_well_shaped host interfaces s records s' r :
  main host interfaces s = Ok records s' ->
  r ∈ records ->
  dom (parameters r) = ({[ lit "current"; lit "preset" ]} : gset str)
  /\ forall section inner,
       parameters r !! section = Some inner ->
       dom inner ⊆ ({[ lit "RX"; lit "TX" ]} : gset str).
Proof.
  intros (exe & l & log & ->)%main_Ok_inv Hr.
  apply list_elem_of_fmap in Hr as (a & -> & _).
  rewrite record_of_parameters. apply params_of_well_shaped.
Qed.

(* ---- the values ---- *)

Lemma stored_no_params section key : stored no_params section key = None.
Proof.
  unfold stored, no_params. rewrite lookup_insert. case_decide; [done|].
  rewrite lookup_insert. case_decide; [done|]. by rewrite lookup_empty.
Qed.

Lemma stored_put_inv section key v d section' key' v' :
  stored (put section key v d) section' key' = Some v' ->
  v' = v \/ stored d section' key' = Some v'.
Proof.
  destruct (decide (section = section' /\ key = key')) as [[<- <-]|Hne].
  - destruct (d !! section) eqn:Hd.
    + rewrite stored_put_eq by eauto. intros [= <-]. by left.
    + unfold put. rewrite Hd. by right.
  - rewrite stored_put_ne; [by right|].
    destruct (decide (section = section')); [right|by left]. naive_solver.
Qed.

Lemma value_of_clean l :
  Forall (fun c => islinebreak c = false) l -> clean_value (value_of l).
Proof.
  intros Hl. unfold value_of.
  assert ((colon ∉ default [] (split colon l !! 1))
          /\ Forall (fun c => islinebreak c = false) (default [] (split colon l !! 1)))
    as [Hcolon Hlb].
  { destruct (split colon l !! 1) as [f|] eqn:Hf; cbn [default].
    - split.
      + by apply (proj1 (Forall_lookup _ _) (split_no_sep colon l) 1 f).
      + by apply (proj1 (Forall_lookup _ _) (split_Forall _ colon l Hl) 1 f).
    - split; [apply not_elem_of_nil|constructor]. }
  split; [apply strip_idemp|]. split; [|by apply strip_Forall].
  assert (Forall (fun c => c <> colon) (default [] (split colon l !! 1))) as Hne.
  { apply Forall_forall. intros c Hc ->. done. }
  apply (strip_Forall _ _) in Hne. intros Hin.
  by apply (proj1 (Forall_forall _ _) Hne colon Hin).
Qed.

Lemma step_line_clean line flags d :
  Forall (fun c => islinebreak c = false) line ->
  (forall section key v, stored d section key = Some v -> clean_value v) ->
  forall section key v,
    stored (step_line (flags, d) line).2 section key = Some v -> clean_value v.
Proof.
  intros Hline Hd. unfold step_line. destruct (step_flags _ _) as [pre current]. cbn [snd].
  pose proof (value_of_clean (strip line) (strip_Forall _ _ Hline)) as Hv.
  unfold step_value. intros section key v.
  repeat case_match; intros Hst;
    repeat (apply stored_put_inv in Hst as [-> | Hst]; [done|]); by eapply Hd.
Qed.

Lemma scan_clean lines flags d :
  Forall (Forall (fun c => islinebreak c = false)) lines ->
  (forall section key v, stored d section key = Some v -> clean_value v) ->
  forall section key v,
    stored (scan (flags, d) lines).2 section key = Some v -> clean_value v.
Proof.
  intros Hlines. revert flags d.
  induction Hlines as [|line lines Hline _ IH]; intros flags d Hd; [done|].
  rewrite scan_cons. destruct (step_line (flags, d) line) as [flags' d'] eqn:E.
  apply IH. change d' with (flags', d').2. rewrite <- E. by apply step_line_clean.
Qed.

(** X10. Every value in a record a run returns is trimmed and has no
    colon and no line boundary in it. *)
Theorem stored_values_are_clean host interfaces s records s' r section key v :
  main host interfaces s = Ok records s' ->
  r ∈ records ->
  stored (parameters r) section key = Some v ->
  strip v = v /\ (colon ∉ v) /\ Forall (fun c => islinebreak c = false) v.
Proof.
  intros (exe & l & log & ->)%main_Ok_inv Hr.
  apply list_elem_of_fmap in Hr as (a & -> & _).
  rewrite record_of_parameters. unfold params_of, parse.
  destruct (negb _); [by rewrite stored_no_params|].
  apply scan_clean; [apply splitlines_Forall|].
  intros section' key' v'. by rewrite stored_no_params.
Qed.

(* ---- what a scan leaves alone ---- *)

(** X13. The scan of an output returns; it gives no warning, runs no
    command, and changes no dict but the one of its interface. *)
Theorem scan_touches_only_its_dict values i lines flags s p d :
  values !! i = Some p -> heap s !! p = Some d -> has_sections d ->
  exists flags' s',
    for_ lines (scan_line values i) flags s = Ok flags' s'
    /\ warnings s' = warnings s
    /\ commands s' = commands s
    /\ length (heap s') = length (heap s)
    /\ forall q, q <> p -> heap s' !! q = heap s !! q.
Proof.
  intros Hv Hp Hd. eexists _, _.
  split; [apply (scan_run values i lines flags s p d Hv Hp Hd)|].
  cbn [warnings commands heap with_heap]. repeat split.
  - apply length_insert.
  - intros q Hq. by apply list_lookup_insert_ne.
Qed.

(** X14. An [RX:] (or [TX:]) line changes the entry of its key in the
    section whose flag is set and no other entry. *)
Theorem value_line_changes_one_entry values i line pre current s p d key :
  values !! i = Some p -> heap s !! p = Some d -> has_sections d ->
  key = lit "RX" \/ key = lit "TX" ->
  startswith (strip line) (key ++ [colon]) = true ->
  exists s' d',
    scan_line values i line (pre, current) s = Ok (pre, current) s'
    /\ heap s' !! p = Some d'
    /\ forall section key',
         ~ (key' = key
            /\ ((section = lit "current" /\ current = true)
                \/ (section = lit "preset" /\ pre = true))) ->
         stored d' section key' = stored d section key'.
Proof.
  intros Hv Hp Hd Hkey [rest Hl]%startswith_app. rewrite <- app_assoc in Hl. cbn [app] in Hl.
  eexists _, _. split; [|split].
  - rewrite (scan_line_run values i line (pre, current) s p d Hv Hp Hd).
    rewrite (step_line_value key rest line pre current d Hkey Hl). reflexivity.
  - cbn [heap with_heap]. apply list_lookup_insert_eq. by eapply lookup_lt_Some.
  - cbn [snd]. intros section key' Hother. unfold step_value. cbv zeta.
    assert (forall sec (flag : bool) v d0,
              (sec = lit "current" /\ flag = current) \/ (sec = lit "preset" /\ flag = pre) ->
              stored (if flag then put sec key v d0 else d0) section key'
              = stored d0 section key') as Hkeep.
    { intros sec flag v d0 Hsec. destruct flag; [|done]. apply stored_put_ne.
      destruct (decide (sec = section)) as [<-|]; [right|by left].
      intros <-. apply Hother. split; [done|]. naive_solver. }
    rewrite (Hkeep (lit "preset") pre) by (by right).
    by rewrite (Hkeep (lit "current") current) by (by left).
Qed.

(** X15. The parameters of the record of a query that exits 0 are the
    dict the scan of its output ends with, started on a dict with two
    empty sections. *)
Theorem record_holds_the_scan_result host exe i s stdout stderr values s0 p :
  which host (lit "ethtool") = Some exe ->
  execute host (commands s) (ethtool_g host exe i) = (0%Z, stdout, stderr) ->
  values !! i = Some p ->
  heap s0 !! p = Some no_params ->
  exists r s' flags s0',
    main host [i] s = Ok [r] s'
    /\ for_ (splitlines (strip stdout)) (scan_line values i) (false, false) s0
       = Ok flags s0'
    /\ heap s0' !! p = Some (parameters r).
Proof.
  intros Hexe Hrun Hv Hp. eexists _, _, _, _.
  split; [apply (main_single host exe i s stdout stderr Hexe Hrun)|].
  split; [apply (scan_run values i _ (false, false) s0 p no_params Hv Hp),
                no_params_has_sections|].
  cbn [heap with_heap parameters]. apply list_lookup_insert_eq. by eapply lookup_lt_Some.
Qed.
End MoreInvariants.

Section MoreWitnesses.

Lemma documented_output_is_parsed_witness :
  exists s',
    main Scenario.three_interfaces_host [lit "eno3"] initial
    = Ok [{| interface := lit "eno3"; supported := true;
             parameters :=
               <[lit "preset" := <[lit "TX" := lit "4096"]> (<[lit "RX" := lit "4096"]> ∅)]>
               (<[lit "current" := <[lit "TX" := lit "512"]> (<[lit "RX" := lit "512"]> ∅)]> ∅);
             msg := None |}] s'.
Proof.
  apply (documented_output_is_parsed Scenario.three_interfaces_host (lit "/usr/sbin/ethtool")
           (lit "eno3") initial Scenario.eno3_output []
           (lit "Pre-set maximums:") (lit "RX:             4096") (lit "TX:             4096")
           (lit "Current hardware settings:") (lit "RX:             512")
           (lit "TX:             512")
           (lit "             4096") (lit "             4096")
           (lit "             512") (lit "             512")); reflexivity.
Defined.

Lemma parameters_are_well_shaped_witness :
  let r := {| interface := lit "eno3"; supported := true;
              parameters := parse Scenario.eno3_output; msg := None |} in
  dom (parameters r) = ({[ lit "current"; lit "preset" ]} : gset str)
  /\ forall section inner,
       parameters r !! section = Some inner ->
       dom inner ⊆ ({[ lit "RX"; lit "TX" ]} : gset str).
Proof.
  intros r.
  apply (parameters_are_well_shaped Scenario.eno4_host [lit "eno3"; lit "eno4"] initial
           (facts (answers Scenario.eno4_host (lit "/usr/sbin/ethtool") []
                     [lit "eno3"; lit "eno4"]))
           (after Scenario.eno4_host initial (lit "/usr/sbin/ethtool")
                  [lit "eno3"; lit "eno4"]) r).
  - vm_compute. reflexivity.
  - vm_compute. left.
Defined.

Lemma stored_values_are_clean_witness :
  strip (lit "512") = lit "512"
  /\ (colon ∉ lit "512")
  /\ Forall (fun c => islinebreak c = false) (lit "512").
Proof.
  apply (stored_values_are_clean Scenario.eno4_host [lit "eno3"; lit "eno4"] initial
           (facts (answers Scenario.eno4_host (lit "/usr/sbin/ethtool") []
                     [lit "eno3"; lit "eno4"]))
           (after Scenario.eno4_host initial (lit "/usr/sbin/ethtool")
                  [lit "eno3"; lit "eno4"])
           {| interface := lit "eno3"; supported := true;
              parameters := parse Scenario.eno3_output; msg := None |}
           (lit "current") (lit "RX") (lit "512")).
  - vm_compute. reflexivity.
  - vm_compute. left.
  - vm_compute. reflexivity.
Defined.

Lemma scan_touches_only_its_dict_witness :
  exists flags' s',
    for_ (splitlines Scenario.eno3_output) (scan_line Scenario.one_interface (lit "eno3"))
         (false, false)
         {| warnings := [lit "earlier"]; commands := []; heap := [no_params; ∅] |}
    = Ok flags' s'
    /\ warnings s' = [lit "earlier"]
    /\ commands s' = []
    /\ length (heap s') = 2
    /\ forall q, q <> 0 -> heap s' !! q = [no_params; ∅] !! q.
Proof.
  apply (scan_touches_only_its_dict Scenario.one_interface (lit "eno3")
           (splitlines Scenario.eno3_output) (false, false)
           {| warnings := [lit "earlier"]; commands := [];
              heap := [no_params; ∅] |} 0 no_params).
  - reflexivity.
  - reflexivity.
  - apply no_params_has_sections.
Defined.

Lemma value_line_changes_one_entry_witness :
  exists s' d',
    scan_line Scenario.one_interface (lit "eno3") (lit "TX:   512") (false, true)
              (Scenario.scanning no_params)
    = Ok (false, true) s'
    /\ heap s' !! 0 = Some d'
    /\ forall section key',
         ~ (key' = lit "TX"
            /\ ((section = lit "current" /\ true = true)
                \/ (section = lit "preset" /\ false = true))) ->
         stored d' section key' = stored no_params section key'.
Proof.
  apply (value_line_changes_one_entry Scenario.one_interface (lit "eno3") (lit "TX:   512")
           false true (Scenario.scanning no_params) 0 no_params (lit "TX")).
  - reflexivity.
  - reflexivity.
  - apply no_params_has_sections.
  - right. reflexivity.
  - reflexivity.
Defined.

Lemma record_holds_the_scan_result_witness :
  exists r s' flags s0',
    main Scenario.eno4_host [lit "eno3"] initial = Ok [r] s'
    /\ for_ (splitlines (strip Scenario.eno3_output))
            (scan_line Scenario.one_interface (lit "eno3")) (false, false)
            (Scenario.scanning no_params)
       = Ok flags s0'
    /\ heap s0' !! 0 = Some (parameters r).
Proof.
  apply (record_holds_the_scan_result Scenario.eno4_host (lit "/usr/sbin/ethtool")
           (lit "eno3") initial Scenario.eno3_output [] Scenario.one_interface
           (Scenario.scanning no_params) 0).
  - reflexivity.
  - vm_compute. reflexivity.
  - reflexivity.
  - reflexivity.
Defined.

(** X16. When [/proc/net/dev] is there and the listing command exits 0,
    [get_interfaces] returns the trimmed lines of its output other than
    [lo], in their order (a name listed twice is returned twice), having
    run that one command and given no warning. *)
Theorem discovery_keeps_every_other_line host s stdout stderr :
  isfile host (lit "/proc/net/dev") = true ->
  execute host (commands s) listing = (0%Z, stdout, stderr) ->
  get_interfaces host s
  = Ok (filter (fun intf => intf <> lit "lo") (strip <$> splitlines (strip stdout)))
       {| warnings := warnings s; commands := commands s ++ [listing]; heap := heap s |}.
Proof.
  intros Hfile Hrun. unfold get_interfaces. on_host.
  rewrite Hfile, bind_run. unfold run_command. on_host. cbv beta iota zeta.
  fold listing. rewrite Hrun. cbv beta iota. cbn [Z.eqb].
  by rewrite discovered_filter.
Qed.

Lemma discovery_keeps_every_other_line_witness :
  get_interfaces Scenario.three_interfaces_host initial
  = Ok [lit "eno1"; lit "eno2"]
       {| warnings := []; commands := [listing]; heap := [] |}.
Proof.
  apply (discovery_keeps_every_other_line Scenario.three_interfaces_host initial
           Scenario.proc_net_dev []); reflexivity.
Defined.

End MoreWitnesses.

(* ===================================================================== *)
(** ** The run with the library under it *)
(* ===================================================================== *)

Section Worlds.
Implicit Types (w : World) (s : State) (interfaces l : list str) (exe i : str).

Lemma ret_bind {A B} (a : A) (f : A -> M B) s : (mret a ≫= f) s = f a s.
Proof. reflexivity. Qed.

Lemma ended_bind {A B} w (m : M A) (f : A -> M B) s :
  ended_by_run_command w (m s) -> ended_by_run_command w ((m ≫= f) s).
Proof.
  intros (msg & rc & s' & log & k & Hm & Hlog & Hab).
  exists msg, rc, s', log, k. by rewrite bind_run, Hm.
Qed.

(** Two statements that go the same way unless [module.run_command] ends
    the first. *)
Lemma bind_world {A B} w (m m' : M A) (f f' : A -> M B) s :
  m s = m' s \/ ended_by_run_command w (m s) ->
  (forall a s1, f a s1 = f' a s1 \/ ended_by_run_command w (f a s1)) ->
  (m ≫= f) s = (m' ≫= f') s \/ ended_by_run_command w ((m ≫= f) s).
Proof.
  intros [Hm | Hm] Hf; [|right; by apply ended_bind].
  rewrite !bind_run, <- Hm. destruct (m s) as [a s1| | |] eqn:E; try by left.
  destruct (Hf a s1) as [Hf1 | Hf1]; [by left|]. right.
  destruct Hf1 as (msg & rc & s' & log & k & H1 & H2 & H3).
  exists msg, rc, s', log, k. done.
Qed.

Lemma for_world {A B} w (body body' : A -> B -> M B) (xs : list A) acc s :
  (forall x acc s1, body x acc s1 = body' x acc s1 \/ ended_by_run_command w (body x acc s1)) ->
  for_ xs body acc s = for_ xs body' acc s \/ ended_by_run_command w (for_ xs body acc s).
Proof.
  intros Hbody. revert acc s. induction xs as [|x xs IH]; intros acc s; [by left|].
  cbn [for_]. apply bind_world; [apply Hbody|]. intros acc' s1. apply IH.
Qed.

Lemma run_command_world w c sh s :
  run_command w c sh s = run_command (base w) c sh s
  \/ ended_by_run_command w (run_command w c sh s).
Proof.
  unfold run_command. on_host.
  destruct (aborts w (commands s) _) as [[msg rc]|] eqn:E; [right|by left].
  eexists msg, rc, _, (commands s), _. split; [reflexivity|]. split; [reflexivity|]. exact E.
Qed.

Lemma get_interfaces_world w s :
  get_interfaces w s = get_interfaces (base w) s
  \/ ended_by_run_command w (get_interfaces w s).
Proof.
  unfold get_interfaces. on_host. destruct (isfile (base w) _); [|by left].
  apply bind_world; [apply run_command_world|]. intros a s1. by left.
Qed.

Lemma query_interface_on_world w exe i acc s :
  query_interface w exe i acc s = query_interface (base w) exe i acc s
  \/ ended_by_run_command w (query_interface w exe i acc s).
Proof.
  destruct acc as [values rp].
  rewrite (query_interface_world w), (query_interface_world (base w)). on_host.
  destruct (aborts w (commands s) _) as [[msg rc]|] eqn:E; [right|by left].
  eexists msg, rc, _, (commands s), _. split; [reflexivity|]. split; [reflexivity|]. exact E.
Qed.

Lemma locale_world w s :
  (exists locale, get_best_parsable_locale w s = Ok locale (after_locale w s))
  \/ exists msg rc k,
       locale_query w = Some k /\ aborts w (commands s) k = Some (msg, rc)
       /\ get_best_parsable_locale w s
          = Aborted msg rc {| warnings := warnings s; commands := commands s ++ [k];
                              heap := heap s |}.
Proof.
  unfold get_best_parsable_locale, after_locale, locale_commands.
  destruct (locale_query w) as [k|].
  - rewrite bind_run. unfold run_command. destruct k as [c sh]. cbn [cmd use_unsafe_shell].
    destruct (aborts w (commands s) _) as [[msg rc]|] eqn:E.
    + right. eexists msg, rc, _. split; [reflexivity|]. split; [exact E|reflexivity].
    + left. eexists. reflexivity.
  - left. eexists. rewrite app_nil_r. by destruct s.
Qed.

(** A run on a world is ended by [module.run_command], or is the run on
    its host from the state the locale query leaves. *)
Lemma main_world w interfaces s :
  main w interfaces s = main (base w) interfaces (after_locale w s)
  \/ ended_by_run_command w (main w interfaces s).
Proof.
  destruct (locale_world w s) as [[locale Hloc] | (msg & rc & k & Hq & Hab & Hloc)].
  - unfold main. unfold get_best_parsable_locale at 2. on_host.
    rewrite ret_bind, bind_run, Hloc. cbv beta iota zeta.
    destruct (which (base w) (lit "ethtool")) as [exe|]; [|by left].
    rewrite !ret_bind.
    apply bind_world.
    + destruct interfaces; [apply get_interfaces_world|by left].
    + intros l s1. apply bind_world; [|by left].
      apply for_world. intros x acc s2. apply query_interface_on_world.
  - right. unfold main. eexists msg, rc, _, (commands s), k.
    rewrite bind_run, Hloc. done.
Qed.

Lemma not_ended {A} w (o : Outcome A) :
  (forall log k, aborts w log k = None) -> ~ ended_by_run_command w o.
Proof. intros Hno (msg & rc & s' & log & k & _ & _ & Hab). by rewrite Hno in Hab. Qed.

(** Where [module.run_command] always returns. *)
Lemma main_returning w interfaces s :
  (forall log k, aborts w log k = None) ->
  main w interfaces s = main (base w) interfaces (after_locale w s).
Proof. intros Hno. destruct (main_world w interfaces s) as [?|[]%not_ended]; done. Qed.


(** A run that returns has returned what the run on its host returns from
    the state the locale query leaves: what is proved of the records and
    of the state of a run on a host holds of every run that returns. *)
Lemma main_Ok_world w interfaces s records s' :
  main w interfaces s = Ok records s' ->
  main (base w) interfaces (after_locale w s) = Ok records s'.
Proof.
  intros Hmain. destruct (main_world w interfaces s) as [<- | Hended]; [done|].
  destruct Hended as (msg & rc & s1 & log & k & Hab & _). congruence.
Qed.

(** C8, as amended. Without an [ethtool] executable the run fails with the
    fatal message of [main] before any interface is fetched: no record
    is built, no warning given, and no command run but the locale query
    of the library (unless that query itself ends the run). It is the
    only failure [main] raises: with the executable found the run
    returns its records, or is ended by [module.run_command], which
    calls [fail_json] on its own when it cannot start a command. *)
Theorem missing_ethtool_is_the_only_own_failure w interfaces s :
  match which (base w) (lit "ethtool") with
  | None =>
      main w interfaces s
      = Failed (lit "Could not find ethtool executable") interfaces
               {| warnings := warnings s;
                  commands := commands s ++ locale_commands w;
                  heap := heap s |}
      \/ exists msg rc k,
           locale_query w = Some k
           /\ aborts w (commands s) k = Some (msg, rc)
           /\ main w interfaces s
              = Aborted msg rc
                  {| warnings := warnings s; commands := commands s ++ [k];
                     heap := heap s |}
  | Some _ =>
      (exists records s', main w interfaces s = Ok records s')
      \/ exists msg rc s' log k,
           main w interfaces s = Aborted msg rc s'
           /\ commands s' = log ++ [k]
           /\ aborts w log k = Some (msg, rc)
  end.
Proof.
  destruct (which (base w) (lit "ethtool")) as [exe|] eqn:Hexe.
  - destruct (main_world w interfaces s) as [Hmain | Hended]; [left|by right].
    destruct (main_returns (base w) interfaces exe (after_locale w s) Hexe)
      as (l & s1 & Hrun & _).
    rewrite Hmain, Hrun. eauto.
  - destruct (locale_world w s) as [[locale Hloc] | (msg & rc & k & Hq & Hab & Hloc)].
    + left. unfold main. rewrite bind_run, Hloc. cbv beta iota zeta. by rewrite Hexe.
    + right. exists msg, rc, k. unfold main. by rewrite bind_run, Hloc.
Qed.

(** C8 as stated fails: with [ethtool] found, a name with a NUL character
    in it makes [module.run_command] end the run, after the interface
    before it has been queried and before the one after it is. *)
Lemma run_command_failure_ends_the_run :
  which (base Scenario.nul_world) (lit "ethtool") = Some (lit "/usr/sbin/ethtool")
  /\ exists s',
       main Scenario.nul_world [lit "eno3"; [97; 0; 98]%N; lit "eno4"] initial
       = Aborted (lit "embedded null byte") 257 s'
       /\ commands s'
          = [ {| cmd := lit "/usr/bin/locale -a"; use_unsafe_shell := false |};
              {| cmd := lit "/usr/sbin/ethtool -g eno3"; use_unsafe_shell := false |};
              {| cmd := lit "/usr/sbin/ethtool -g " ++ [39; 97; 0; 98; 39]%N;
                 use_unsafe_shell := false |} ].
Proof. split; [reflexivity|]. eexists. split; vm_compute; reflexivity. Qed.

Example main_without_ethtool :
  main (Scenario.with_locale Scenario.no_ethtool_host) [lit "eno3"] initial
  = Failed (lit "Could not find ethtool executable") [lit "eno3"]
           {| warnings := [];
              commands := [ {| cmd := lit "/usr/bin/locale -a"; use_unsafe_shell := false |} ];
              heap := [] |}.
Proof. reflexivity. Qed.

Lemma no_discovery_on_host (host : Host) exe s :
  which host (lit "ethtool") = Some exe ->
  isfile host (lit "/proc/net/dev") = false ->
  main host [] s = Ok [] s.
Proof.
  intros Hexe Hfile.
  assert (get_interfaces host s = Ok [] s) as Hget.
  { unfold get_interfaces. on_host. by rewrite Hfile. }
  rewrite (main_run host [] exe s [] s Hexe Hget). by rewrite after_nil.
Qed.

(** X1. Where [module.run_command] returns, with [ethtool] installed and
    no [/proc/net/dev], a run on the empty list returns no record, calls
    [module.warn] not once, and runs no command but the locale query of
    the library. *)
Theorem no_discovery_source_gives_no_facts w exe s :
  (forall log k, aborts w log k = None) ->
  which (base w) (lit "ethtool") = Some exe ->
  isfile (base w) (lit "/proc/net/dev") = false ->
  main w [] s
  = Ok [] {| warnings := warnings s;
             commands := commands s ++ locale_commands w;
             heap := heap s |}.
Proof.
  intros Hno Hexe Hfile. rewrite (main_returning w [] s Hno).
  by rewrite (no_discovery_on_host (base w) exe (after_locale w s) Hexe Hfile).
Qed.

Lemma no_discovery_source_gives_no_facts_witness :
  main (Scenario.with_locale Scenario.no_proc_host) [] initial
  = Ok [] {| warnings := [];
             commands := [ {| cmd := lit "/usr/bin/locale -a"; use_unsafe_shell := false |} ];
             heap := [] |}.
Proof.
  apply (no_discovery_source_gives_no_facts (Scenario.with_locale Scenario.no_proc_host)
           (lit "/usr/sbin/ethtool") initial); reflexivity.
Defined.

Lemma failed_listing_on_host (host : Host) exe s rc stdout stderr :
  which host (lit "ethtool") = Some exe ->
  isfile host (lit "/proc/net/dev") = true ->
  execute host (commands s) listing = (rc, stdout, stderr) ->
  rc <> 0%Z ->
  main host [] s
  = Ok [] {| warnings := warnings s
               ++ [lit "Unable to fetch list of network interfaces: "
                   ++ replace newline dot stderr];
             commands := commands s ++ [listing];
             heap := heap s |}.
Proof.
  intros Hexe Hfile Hrun Hrc.
  set (s1 := {| warnings := warnings s
                  ++ [lit "Unable to fetch list of network interfaces: "
                      ++ replace newline dot stderr];
                commands := commands s ++ [listing]; heap := heap s |}).
  assert (get_interfaces host s = Ok [] s1) as Hget.
  { unfold get_interfaces. on_host. rewrite Hfile, bind_run. unfold run_command. on_host.
    cbv beta iota zeta. fold listing. rewrite Hrun. cbv beta iota.
    apply Z.eqb_neq in Hrc. rewrite Hrc. rewrite bind_run. reflexivity. }
  rewrite (main_run host [] exe s [] s1 Hexe Hget). by rewrite after_nil.
Qed.

(** X2. Where [module.run_command] returns, with [ethtool] installed, when
    the listing command exits non-zero a run on the empty list returns no
    record; it has run the locale query of the library and the listing
    command, and called [module.warn] once, with the stderr of the
    listing command, each newline replaced by a full stop. *)
Theorem failed_listing_warns_and_gives_no_facts w exe s rc stdout stderr :
  (forall log k, aborts w log k = None) ->
  which (base w) (lit "ethtool") = Some exe ->
  isfile (base w) (lit "/proc/net/dev") = true ->
  execute (base w) (commands s ++ locale_commands w) listing = (rc, stdout, stderr) ->
  rc <> 0%Z ->
  main w [] s
  = Ok [] {| warnings := warnings s
               ++ [lit "Unable to fetch list of network interfaces: "
                   ++ replace newline dot stderr];
             commands := commands s ++ locale_commands w ++ [listing];
             heap := heap s |}.
Proof.
  intros Hno Hexe Hfile Hrun Hrc. rewrite (main_returning w [] s Hno).
  rewrite (failed_listing_on_host (base w) exe (after_locale w s) rc stdout stderr
             Hexe Hfile Hrun Hrc).
  unfold after_locale. cbn [warnings commands heap]. by rewrite <- app_assoc.
Qed.

Lemma failed_listing_warns_and_gives_no_facts_witness :
  main (Scenario.with_locale Scenario.failing_listing_host) [] initial
  = Ok [] {| warnings :=
               [lit "Unable to fetch list of network interfaces: cat: /proc/net/dev:.Permission denied"];
             commands := [ {| cmd := lit "/usr/bin/locale -a"; use_unsafe_shell := false |};
                           listing ];
             heap := [] |}.
Proof.
  apply (failed_listing_warns_and_gives_no_facts
           (Scenario.with_locale Scenario.failing_listing_host)
           (lit "/usr/sbin/ethtool") initial 2%Z []
           (lit "cat: /proc/net/dev:" ++ [newline] ++ lit "Permission denied")).
  - reflexivity.
  - reflexivity.
  - reflexivity.
  - reflexivity.
  - lia.
Defined.

(** X4. Where [module.run_command] returns, on a non-empty list and with
    [ethtool] installed, the commands of a run are the locale query of
    the library and then one [exe -g quote(interface)] for each
    interface of the list, in the order of the list, none through the
    shell: the listing command is not run. *)
Theorem explicit_list_runs_one_command_each w exe interfaces s :
  (forall log k, aborts w log k = None) ->
  interfaces <> [] ->
  which (base w) (lit "ethtool") = Some exe ->
  exists records s',
    main w interfaces s = Ok records s'
    /\ commands s'
       = commands s ++ locale_commands w
         ++ ((fun i => {| cmd := exe ++ lit " -g " ++ quote (base w) i;
                          use_unsafe_shell := false |}) <$> interfaces).
Proof.
  intros Hno Hne Hexe. rewrite (main_returning w interfaces s Hno).
  destruct (main_returns (base w) interfaces exe (after_locale w s) Hexe)
    as (l & s1 & Hmain & Hl).
  destruct (Hl Hne) as [-> ->]. eexists _, _. split; [exact Hmain|].
  unfold after, after_locale. cbn [commands]. by rewrite <- app_assoc.
Qed.

Lemma explicit_list_runs_one_command_each_witness :
  exists records s',
    main (Scenario.with_locale Scenario.eno4_host) [lit "lo"; lit "eno4"] initial
    = Ok records s'
    /\ commands s'
       = [ {| cmd := lit "/usr/bin/locale -a"; use_unsafe_shell := false |};
           {| cmd := lit "/usr/sbin/ethtool -g lo"; use_unsafe_shell := false |};
           {| cmd := lit "/usr/sbin/ethtool -g eno4"; use_unsafe_shell := false |} ].
Proof.
  apply (explicit_list_runs_one_command_each (Scenario.with_locale Scenario.eno4_host)
           (lit "/usr/sbin/ethtool") [lit "lo"; lit "eno4"] initial).
  - reflexivity.
  - discriminate.
  - reflexivity.
Defined.

End Worlds.
